(** * Diff_to_HTML.py: the unified-diff table writer

    A shallow embedding of [extract_function_names] and [write_diff_to_html]
    of [Diff_to_HTML.py], with the Python built-ins they call.

    Text.  A Python [str] is a [string]; the markers the program looks at
    ([@@], [+], [-], the space and the comma, the digits, the line breaks)
    are ASCII.  Characters outside ASCII are carried through unchanged; the
    three line boundaries U+0085, U+2028, U+2029 and white space and digits
    outside ASCII are not modelled.

    Output.  The file object [f] is the list of the strings handed to
    [f.write], oldest first.  An exception stops the writes; what was
    written before it stays in the file (the [with] block closes it).

    Integers.  Python's [int] is [Z].

    Sets.  A Python [set] of [str] is a [gset string]; where the program
    joins a set into a text, its order is that of [elements] (CPython's is
    that of its hash table).

    Opening the output file and the calls of git are outside the model: the
    functions start from the texts that git returned. *)

From Stdlib Require Import ZArith Lia Ascii String List.
From stdpp Require Import base option list gmap sets strings pretty.

Local Open Scope string_scope.
Local Open Scope list_scope.

(** ** Python built-ins *)

Module Py.

(** The exceptions the program can raise while it writes. *)
Inductive exn : Type :=
| ValueError (literal : string)
    (* int(literal): invalid literal for int() with base 10 *)
| IndexError
    (* parts[i]: list index out of range *)
| AttributeError.
    (* html.escape(n) on an int n: 'int' object has no attribute 'replace' *)

Inductive result (A : Type) : Type :=
| Ok (a : A)
| Raise (e : exn).
Arguments Ok {A} a.
Arguments Raise {A} e.

Definition and_then {A B : Type} (r : result A) (k : A -> result B) : result B :=
  match r with
  | Ok a => k a
  | Raise e => Raise e
  end.

Notation "'let?' x ':=' r 'in' k" := (and_then r (fun x => k))
  (at level 10, x pattern, r at level 100, k at level 200).

(** A dynamically typed argument: [html.escape] is called on both kinds. *)
Inductive value : Type :=
| Str (s : string)
| Int (n : Z).

(** The double quote, which a literal cannot hold. *)
Definition dq : string := String (ascii_of_nat 34) EmptyString.

(** [s.startswith(p)] *)
Fixpoint startswith (p s : string) : bool :=
  match p with
  | EmptyString => true
  | String a p' =>
      match s with
      | EmptyString => false
      | String b s' => Ascii.eqb a b && startswith p' s'
      end
  end.

(** [s[1:]] *)
Definition tail (s : string) : string :=
  match s with
  | EmptyString => EmptyString
  | String _ r => r
  end.

(** [str.isspace] on one ASCII character: tab, line feed, vertical tab,
    form feed, carriage return, the separators 0x1c to 0x1f, space. *)
Definition isspace (c : ascii) : bool :=
  let n := nat_of_ascii c in
  (((9 <=? n) && (n <=? 13)) || ((28 <=? n) && (n <=? 32)))%nat.

(** The ASCII line boundaries of [str.splitlines]: line feed, vertical tab,
    form feed, carriage return, and the separators 0x1c, 0x1d, 0x1e. *)
Definition islinebreak (c : ascii) : bool :=
  let n := nat_of_ascii c in
  (((10 <=? n) && (n <=? 13)) || ((28 <=? n) && (n <=? 30)))%nat.

Definition CR : ascii := ascii_of_nat 13.
Definition LF : ascii := ascii_of_nat 10.

(** Put a character in front of the first piece. *)
Definition cons_first (c : ascii) (pieces : list string) : list string :=
  match pieces with
  | [] => [String c EmptyString]
  | p :: ps => String c p :: ps
  end.

(** [s.splitlines()]: pieces between line boundaries, boundaries dropped,
    [\r\n] one boundary, no empty piece after a final boundary. *)
Fixpoint splitlines (s : string) : list string :=
  match s with
  | EmptyString => []
  | String c r =>
      if islinebreak c then
        EmptyString ::
          (if Ascii.eqb c CR then
             match r with
             | String c' r' => if Ascii.eqb c' LF then splitlines r' else splitlines r
             | EmptyString => splitlines r
             end
           else splitlines r)
      else cons_first c (splitlines r)
  end.

(** [s.split(sep)] for a separator of one character: every occurrence
    splits, and the result is never empty. *)
Fixpoint split (sep : ascii) (s : string) : list string :=
  match s with
  | EmptyString => [EmptyString]
  | String c r =>
      if Ascii.eqb c sep then EmptyString :: split sep r
      else cons_first c (split sep r)
  end.

(** [l[i]] *)
Definition index {A : Type} (l : list A) (i : nat) : result A :=
  match l !! i with
  | Some x => Ok x
  | None => Raise IndexError
  end.

Fixpoint lstrip (space : ascii -> bool) (s : string) : string :=
  match s with
  | EmptyString => EmptyString
  | String c r => if space c then lstrip space r else s
  end.

Fixpoint rstrip (space : ascii -> bool) (s : string) : string :=
  match s with
  | EmptyString => EmptyString
  | String c r =>
      match rstrip space r with
      | EmptyString => if space c then EmptyString else String c EmptyString
      | r' => String c r'
      end
  end.

(** [s.strip()] *)
Definition strip (s : string) : string := rstrip isspace (lstrip isspace s).

(** The white space that [int] skips around a literal (C's [isspace]): tab,
    line feed, vertical tab, form feed, carriage return, space. *)
Definition isspace_c (c : ascii) : bool :=
  let n := nat_of_ascii c in
  (((9 <=? n) && (n <=? 13)) || (n =? 32))%nat.

Definition digit (c : ascii) : option Z :=
  let n := nat_of_ascii c in
  if ((48 <=? n) && (n <=? 57))%nat then Some (Z.of_nat n - 48)%Z else None.

Definition underscore : ascii := ascii_of_nat 95.

(** The digits of an [int] literal: [acc] is the value so far, [after_digit]
    tells that the previous character was a digit (an underscore may stand
    only between two digits). *)
Fixpoint int_digits (acc : Z) (after_digit : bool) (s : string) : option Z :=
  match s with
  | EmptyString => if after_digit then Some acc else None
  | String c r =>
      match digit c with
      | Some d => int_digits (10 * acc + d)%Z true r
      | None =>
          if Ascii.eqb c underscore && after_digit
          then int_digits acc false r
          else None
      end
  end.

(** [int(s)] on a [str], base 10: the white space of [isspace_c] around the
    literal is dropped, one sign is read, then at least one digit; [None] is
    the ValueError.  (The limit that CPython 3.11 puts on the number of
    digits is not modelled.) *)
Definition int_of (s : string) : option Z :=
  match rstrip isspace_c (lstrip isspace_c s) with
  | String "+" r => int_digits 0 false r
  | String "-" r => Z.opp <$> int_digits 0 false r
  | r => int_digits 0 false r
  end.

Definition int (s : string) : result Z :=
  match int_of s with
  | Some n => Ok n
  | None => Raise (ValueError s)
  end.

(** [str(n)], as an f-string formats an int. *)
Definition str (n : Z) : string := pretty n.

(** [s.replace(old, new)] for [old] of one character. *)
Fixpoint replace (old : ascii) (new : string) (s : string) : string :=
  match s with
  | EmptyString => EmptyString
  | String c r =>
      if Ascii.eqb c old then new +:+ replace old new r
      else String c (replace old new r)
  end.

(** The body of [html.escape(s, quote=True)] on a [str]. *)
Definition escape_str (s : string) : string :=
  let s := replace "&" "&amp;" s in
  let s := replace "<" "&lt;" s in
  let s := replace ">" "&gt;" s in
  let s := replace (ascii_of_nat 34) "&quot;" s in
  let s := replace "'" "&#x27;" s in
  s.

(** [html.escape(v)]: its first statement is [v.replace(...)], which an int
    does not have. *)
Definition escape (v : value) : result string :=
  match v with
  | Str s => Ok (escape_str s)
  | Int _ => Raise AttributeError
  end.

(** [sep.join(l)] *)
Definition join (sep : string) (l : list string) : string := String.concat sep l.

(** *** The regular expressions of [re] that the program uses

    A character, a character class, a greedy star over a character class,
    sequence, alternative and a numbered capturing group. *)
Inductive regex : Type :=
| Chr (c : ascii)
| Cls (p : ascii -> bool)
| Star (p : ascii -> bool)
| Seq (r1 r2 : regex)
| Alt (r1 r2 : regex)
| Group (n : nat) (r : regex).

(** The text that was consumed between [s] and its suffix [rest]. *)
Definition consumed (s rest : string) : string :=
  String.substring 0 (String.length s - String.length rest) s.

(** Greedy [p*] with backtracking: the longest run first, then shorter. *)
Fixpoint star {A : Type} (p : ascii -> bool) (s : string)
    (k : string -> option A) : option A :=
  match s with
  | EmptyString => k s
  | String c r =>
      if p c then
        match star p r k with
        | Some x => Some x
        | None => k s
        end
      else k s
  end.

(** Backtracking match of [r] at the start of [s]; [k] matches what
    follows.  [caps] maps a group number to the text it captured. *)
Fixpoint matches (r : regex) (s : string) (caps : gmap nat string)
    (k : string -> gmap nat string -> option (gmap nat string))
    : option (gmap nat string) :=
  match r with
  | Chr c =>
      match s with
      | String c' s' => if Ascii.eqb c' c then k s' caps else None
      | EmptyString => None
      end
  | Cls p =>
      match s with
      | String c' s' => if p c' then k s' caps else None
      | EmptyString => None
      end
  | Star p => star p s (fun rest => k rest caps)
  | Seq r1 r2 => matches r1 s caps (fun rest caps' => matches r2 rest caps' k)
  | Alt r1 r2 =>
      match matches r1 s caps k with
      | Some m => Some m
      | None => matches r2 s caps k
      end
  | Group n r1 =>
      matches r1 s caps (fun rest caps' => k rest (<[n := consumed s rest]> caps'))
  end.

(** [pattern.match(s)]: anchored at the start, anything may follow. *)
Definition re_match (r : regex) (s : string) : option (gmap nat string) :=
  matches r s ∅ (fun _ caps => Some caps).

(** The regex of a literal text. *)
Fixpoint lit (s : string) : regex :=
  match s with
  | EmptyString => Star (fun _ => false)
  | String c EmptyString => Chr c
  | String c r => Seq (Chr c) (lit r)
  end.

(** [.] (any character but a line feed), [\s], [[a-zA-Z_]], [[a-zA-Z0-9_]]. *)
Definition dot (c : ascii) : bool := negb (Ascii.eqb c LF).

Definition isalpha_ (c : ascii) : bool :=
  let n := nat_of_ascii c in
  (((97 <=? n) && (n <=? 122)) || ((65 <=? n) && (n <=? 90)) || (n =? 95))%nat.

Definition isalnum_ (c : ascii) : bool :=
  let n := nat_of_ascii c in
  isalpha_ c || ((48 <=? n) && (n <=? 57))%nat.

End Py.

Import Py.

(** ** Writing to the file

    A computation is the strings it wrote and how it ended. *)

Definition M (A : Type) : Type := (list string * result A)%type.

Definition ret {A : Type} (a : A) : M A := ([], Ok a).

Definition bind {A B : Type} (m : M A) (k : A -> M B) : M B :=
  match m with
  | (out, Ok a) => let '(out', r) := k a in (out ++ out', r)
  | (out, Raise e) => (out, Raise e)
  end.

(** [f.write(s)] *)
Definition write (s : string) : M unit := ([s], Ok tt).

(** An expression that may raise before anything is written. *)
Definition eval {A : Type} (r : result A) : M A := ([], r).

Notation "'let*' x ':=' m 'in' k" := (bind m (fun x => k))
  (at level 10, x pattern, m at level 100, k at level 200).
Notation "m ';;;' k" := (bind m (fun _ => k))
  (at level 100, k at level 200, right associativity).

(** [for x in l: body(x)] *)
Fixpoint for_each {A : Type} (l : list A) (body : A -> M unit) : M unit :=
  match l with
  | [] => ret tt
  | x :: rest => body x;;; for_each rest body
  end.

(** [for x in l: st = body(st, x)], for a loop that updates local variables. *)
Fixpoint for_fold {A S : Type} (l : list A) (st : S) (body : S -> A -> M S) : M S :=
  match l with
  | [] => ret st
  | x :: rest => let* st' := body st x in for_fold rest st' body
  end.

(** [enumerate(l, start)] *)
Fixpoint enumerate {A : Type} (l : list A) (start : Z) : list (Z * A) :=
  match l with
  | [] => []
  | x :: rest => (start, x) :: enumerate rest (start + 1)%Z
  end.

(** ** extract_function_names *)

Definition backslash : ascii := ascii_of_nat 92.

(** The pattern of line 35, a raw string:
    "^@@.*@@\s*(def|function)\\s*" and then, as its second group, a character
    of "[a-zA-Z_]" and any number of characters of "[a-zA-Z0-9_]".
    After the keyword the raw string holds two backslashes and the letter s
    with a star: the regular expression reads them as one literal backslash
    followed by any number of the letter s. *)
Definition pattern : regex :=
  Seq (lit "@@") (Seq (Star dot) (Seq (lit "@@") (Seq (Star isspace)
  (Seq (Group 1 (Alt (lit "def") (lit "function")))
  (Seq (Chr backslash) (Seq (Star (Ascii.eqb "s"))
  (Group 2 (Seq (Cls isalpha_) (Star isalnum_))))))))).

(** One turn of the loop of lines 36 to 39. *)
Definition add_match (function_names : gset string) (line : string) : gset string :=
  match re_match pattern line with
  | Some m =>
      match m !! 2%nat with
      | Some name => {[ name ]} ∪ function_names
      | None => function_names
      end
  | None => function_names
  end.

Definition extract_function_names (diff : string) : gset string :=
  foldl add_match ∅ (splitlines diff).

(** ** write_diff_to_html *)

Record diff_data : Type := {
  diff : string;
  file_name : string;
  file_status : string;
  file_content : string
}.

(** Lines 46 to 54. *)
Definition page_head : list string :=
  [ "<html><head><style>";
    "body { font-family: Courier, monospace; }";
    ".line-num { display: inline-block; width: 40px; }";
    ".added { background-color: #eaffea; color: green; }";
    ".removed { background-color: #ffecec; color: red; }";
    "table { width: 100%; border-collapse: collapse; }";
    "td, th { border: 1px solid #ddd; padding: 8px; vertical-align: top; white-space: pre-wrap; }";
    "th { background-color: #f2f2f2; }";
    "</style></head><body>" ].

Definition line_num (n : string) : string :=
  "<span class=" +:+ dq +:+ "line-num" +:+ dq +:+ ">" +:+ n +:+ "</span>".

Definition newline : string := String LF EmptyString.

(** Lines 69 and 115: a line of a file shown whole in the New Version table. *)
Definition numbered_added (i : Z) (line : string) : string :=
  line_num (str i) +:+ " + " +:+ escape_str (strip line) +:+ newline.

(** Lines 75 and 121: a line of a file shown whole in the Old Version table. *)
Definition numbered_removed (i : Z) (line : string) : string :=
  line_num (str i) +:+ " - " +:+ escape_str (strip line) +:+ newline.

(** Lines 66 to 70 and 112 to 116. *)
Definition added_block (file_name file_content : string) : M unit :=
  write ("<p><b>File added: " +:+ escape_str file_name +:+ "</b></p>");;;
  write ("<table><tr><th>New Version</th></tr><tr><td class=" +:+ dq +:+ "added"
         +:+ dq +:+ "><pre>");;;
  for_each (enumerate (splitlines file_content) 1)
    (fun '(i, line) => write (numbered_added i line));;;
  write "</pre></td></tr></table>".

(** Lines 72 to 76 and 118 to 122. *)
Definition deleted_block (file_name file_content : string) : M unit :=
  write ("<p><b>File deleted: " +:+ escape_str file_name +:+ "</b></p>");;;
  write ("<table><tr><th>Old Version</th></tr><tr><td class=" +:+ dq +:+ "removed"
         +:+ dq +:+ "><pre>");;;
  for_each (enumerate (splitlines file_content) 1)
    (fun '(i, line) => write (numbered_removed i line));;;
  write "</pre></td></tr></table>".

(** The filter of lines 79 and 125. *)
Definition preamble (line : string) : bool :=
  startswith "diff --git" line || startswith "index " line
  || startswith "--- " line || startswith "+++ " line.

(** The sum of lines 80 and 126. *)
Definition difference_count (lines : list string) : nat :=
  length (List.filter (fun line => startswith "-" line || startswith "+" line) lines).

(** The rows of the two-column table, whose header (lines 86 and 132) names
    the first column Old Version and the second New Version.

    Lines 96 and 142: the separator between hunks. *)
Definition row_boundary : string :=
  "<tr><td colspan=" +:+ dq +:+ "2" +:+ dq +:+ "><hr></td></tr>".

(** Lines 98 and 144: the first cell filled, class removed, the second empty. *)
Definition row_old_only (old_line_num : Z) (text : string) : string :=
  "<tr><td class=" +:+ dq +:+ "removed" +:+ dq +:+ "><pre>"
  +:+ line_num (str old_line_num) +:+ " - " +:+ escape_str text
  +:+ "</pre></td><td></td></tr>".

(** Lines 101 and 147: the first cell empty, the second filled, class added. *)
Definition row_new_only (new_line_num : Z) (text : string) : string :=
  "<tr><td></td><td class=" +:+ dq +:+ "added" +:+ dq +:+ "><pre>"
  +:+ line_num (str new_line_num) +:+ " + " +:+ escape_str text
  +:+ "</pre></td></tr>".

(** Lines 104 and 150: both cells filled; [new_num] is what
    [html.escape(new_line_num)] returned. *)
Definition row_unchanged (old_line_num : Z) (new_num : string) (text : string) : string :=
  "<tr><td><pre>" +:+ line_num (str old_line_num) +:+ " " +:+ escape_str text
  +:+ "</pre></td><td><pre>" +:+ line_num new_num +:+ " " +:+ escape_str text
  +:+ "</pre></td></tr>".

(** Lines 93 to 95 and 139 to 141: the two numbers read from a line that
    starts with [@@]. *)
Definition hunk_header (line : string) : result (Z * Z) :=
  let parts := split " " line in
  let? part := index parts 1 in
  let? piece := index (split "," part) 0 in
  let? old_line_num := int (tail piece) in
  let? part := index parts 2 in
  let? piece := index (split "," part) 0 in
  let? new_line_num := int (tail piece) in
  Ok (old_line_num, new_line_num).

(** One turn of the loop of lines 91 to 106 (single commit): the state is
    [(old_line_num, new_line_num)]. *)
Definition row_step_one (st : Z * Z) (line : string) : M (Z * Z) :=
  let '(old_line_num, new_line_num) := st in
  if startswith "@@" line then
    let* (old_line_num, new_line_num) := eval (hunk_header line) in
    write row_boundary;;;
    ret (old_line_num, new_line_num)
  else if startswith "+" line then
    write (row_old_only old_line_num (tail line));;;
    ret ((old_line_num + 1)%Z, new_line_num)
  else if startswith "-" line then
    write (row_new_only new_line_num (tail line));;;
    ret (old_line_num, (new_line_num + 1)%Z)
  else
    let* new_num := eval (escape (Int new_line_num)) in
    write (row_unchanged old_line_num new_num line);;;
    ret ((old_line_num + 1)%Z, (new_line_num + 1)%Z).

(** Lines 78 to 108: a file that is neither added nor deleted, single commit. *)
Definition modified_one (diff : string) : M unit :=
  let lines := splitlines diff in
  let lines := List.filter (fun line => negb (preamble line)) lines in
  let difference_count := difference_count lines in
  let function_names := extract_function_names diff in
  write ("<p><b>Farklılık Sayısı: " +:+ str (Z.of_nat difference_count) +:+ "</b></p>");;;
  write ("<p><b>Farklılık Olan Fonksiyonlar: " +:+ join ", " (elements function_names)
         +:+ "</b></p>");;;
  write "<table><tr><th>Old Version</th><th>New Version</th></tr>";;;
  let* _ := for_fold lines (0%Z, 0%Z) row_step_one in
  write "</table>".

(** One turn of the loop of lines 137 to 152 (two commits). *)
Definition row_step_two (st : Z * Z) (line : string) : M (Z * Z) :=
  let '(old_line_num, new_line_num) := st in
  if startswith "@@" line then
    let* (old_line_num, new_line_num) := eval (hunk_header line) in
    write row_boundary;;;
    ret (old_line_num, new_line_num)
  else if startswith "+" line then
    write (row_old_only old_line_num (tail line));;;
    ret ((old_line_num + 1)%Z, new_line_num)
  else if startswith "-" line then
    write (row_new_only new_line_num (tail line));;;
    ret (old_line_num, (new_line_num + 1)%Z)
  else
    let* new_num := eval (escape (Int new_line_num)) in
    write (row_unchanged old_line_num new_num line);;;
    ret ((old_line_num + 1)%Z, (new_line_num + 1)%Z).

(** Lines 124 to 154: a file that is neither added nor deleted, two commits. *)
Definition modified_two (diff : string) : M unit :=
  let lines := splitlines diff in
  let lines := List.filter (fun line => negb (preamble line)) lines in
  let difference_count := difference_count lines in
  let function_names := extract_function_names diff in
  write ("<p><b>Farklılık Sayısı: " +:+ str (Z.of_nat difference_count) +:+ "</b></p>");;;
  write ("<p><b>Farklılık Olan Fonksiyonlar: " +:+ join ", " (elements function_names)
         +:+ "</b></p>");;;
  write "<table><tr><th>Old Version</th><th>New Version</th></tr>";;;
  let* _ := for_fold lines (0%Z, 0%Z) row_step_two in
  write "</table>".

(** Lines 57 to 154: the body of the loop over [diffs]; [oneArgument] is the
    global flag of line 7, set by the main program. *)
Definition file_body (oneArgument : bool) (diff_data : diff_data) : M unit :=
  let diff := diff diff_data in
  let file_name := file_name diff_data in
  let file_status := file_status diff_data in
  let file_content := file_content diff_data in
  write ("<h2>" +:+ escape_str file_name +:+ " Dosyasındaki Farklılıklar:</h2>");;;
  if oneArgument then
    if String.eqb file_status "A" then added_block file_name file_content
    else if String.eqb file_status "D" then deleted_block file_name file_content
    else modified_one diff
  else
    if String.eqb file_status "D" then added_block file_name file_content
    else if String.eqb file_status "A" then deleted_block file_name file_content
    else modified_two diff.

(** Lines 44 to 158.  The result is what the file holds when the function
    returns, and the exception whose message line 158 printed, if any. *)
Definition write_diff_to_html (oneArgument : bool) (diffs : list diff_data)
    : list string * option exn :=
  match
    for_each page_head write;;;
    for_each diffs (file_body oneArgument);;;
    write "</body></html>"
  with
  | (out, Ok _) => (out, None)
  | (out, Raise e) => (out, Some e)
  end.

(** ** What the claims speak of *)

(** A character occurs in a text. *)
Fixpoint has_char (c : ascii) (s : string) : bool :=
  match s with
  | EmptyString => false
  | String c' r => Ascii.eqb c' c || has_char c r
  end.

(** A start field: the text between the sign of a header part and its first
    comma.  It holds neither a space nor a comma. *)
Definition start_field (o : string) : bool :=
  negb (has_char " " o) && negb (has_char "," o).

(** A count field: absent, or a comma and any text without a space. *)
Definition count_field (c : string) : bool :=
  match c with
  | EmptyString => true
  | String c0 w => Ascii.eqb c0 "," && negb (has_char " " w)
  end.

(** What follows the two ranges of a header: nothing, or a space and any
    text (the closing [@@] and the trailer). *)
Definition header_rest (tr : string) : bool :=
  match tr with
  | EmptyString => true
  | String c0 _ => Ascii.eqb c0 " "
  end.

(** The header line [@@ -o[,count] +n[,count][ rest]]. *)
Definition header_line (o oc n nc tr : string) : string :=
  "@@ -" +:+ o +:+ oc +:+ " +" +:+ n +:+ nc +:+ tr.

(** The kinds of body lines of the specification, by marker. *)
Inductive kind : Type := Context | Added | Removed.

Definition kind_of (line : string) : kind :=
  if startswith "+" line then Added
  else if startswith "-" line then Removed
  else Context.

(** The body lines of a filtered diff: those that are not hunk headers. *)
Definition body_lines (lines : list string) : list string :=
  List.filter (fun line => negb (startswith "@@" line)) lines.

(** The number of records of a kind among body lines. *)
Definition count_kind (k : kind) (body : list string) : nat :=
  length (List.filter (fun line => match kind_of line, k with
                                   | Context, Context | Added, Added | Removed, Removed => true
                                   | _, _ => false
                                   end) body).

(** A hunk as the specification has it: its header line and its body lines. *)
Definition hunk : Type := (string * list string)%type.

Definition hunk_lines (h : hunk) : list string := fst h :: snd h.

(** The lines of a list of hunks, and their bodies alone. *)
Definition hunks_lines (hs : list hunk) : list string := concat (map hunk_lines hs).
Definition hunks_bodies (hs : list hunk) : list string := concat (map snd hs).

(** Every header of the hunks starts with [@@] and no body line does. *)
Definition well_split (hs : list hunk) : bool :=
  forallb (fun h => startswith "@@" (fst h)
                    && forallb (fun line => negb (startswith "@@" line)) (snd h)) hs.

(** A text is empty or starts with the separator. *)
Definition empty_or_sep (sep : ascii) (t : string) : bool :=
  match t with
  | EmptyString => true
  | String c _ => Ascii.eqb c sep
  end.

(** The lines that the loops of [write_diff_to_html] walk: those of the diff
    without the preamble (lines 78 and 79). *)
Definition lines_of (diff : string) : list string :=
  List.filter (fun line => negb (preamble line)) (splitlines diff).

(** What is written for a modified file before its rows (lines 83 to 86):
    the difference count, the function names, the head of the table. *)
Definition table_head (diff : string) : list string :=
  [ "<p><b>Farklılık Sayısı: " +:+ str (Z.of_nat (difference_count (lines_of diff)))
      +:+ "</b></p>";
    "<p><b>Farklılık Olan Fonksiyonlar: "
      +:+ join ", " (elements (extract_function_names diff)) +:+ "</b></p>";
    "<table><tr><th>Old Version</th><th>New Version</th></tr>" ].

(** The lines of a file numbered from 1, each formatted by [fmt]. *)
Definition whole_file_rows (fmt : Z -> string -> string) (file_content : string)
    : list string :=
  imap (fun k line => fmt (1 + Z.of_nat k)%Z line) (splitlines file_content).

(** What line 62 writes for a file. *)
Definition file_title (file_name : string) : string :=
  "<h2>" +:+ escape_str file_name +:+ " Dosyasındaki Farklılıklar:</h2>".

(** The error of a header whose start fields [o] and [n] are not both
    integers: that of the first one [int] refuses. *)
Definition refused (o n : string) : exn :=
  match int_of o with
  | None => ValueError o
  | Some _ => ValueError n
  end.

(** A text from its lines, each closed by a line feed. *)
Definition unlines (lines : list string) : string :=
  foldr (fun line rest => line +:+ newline +:+ rest) EmptyString lines.

(** The hunk of the scenario of the specification, and the same hunk
    without its context line. *)
Definition scenario : string :=
  unlines ["@@ -10,2 +10,3 @@"; " context line"; "-old line"; "+new line A"; "+new line B"].

Definition scenario_changes : string :=
  unlines ["@@ -10,2 +10,3 @@"; "-old line"; "+new line A"; "+new line B"].

(** A diff with a hunk, a row, and then a header whose old start is [x]. *)
Definition malformed : string :=
  unlines ["@@ -1 +1 @@"; "+a"; "@@ -x,2 +10,2 @@"; "+b"].

(** A file as the specification shows it when it is added: its title, the
    head of a New Version table, its lines numbered from 1 with the marker
    [+], the end of the table. *)
Definition shown_added (d : diff_data) : M unit :=
  ( [ file_title (file_name d);
      "<p><b>File added: " +:+ escape_str (file_name d) +:+ "</b></p>";
      "<table><tr><th>New Version</th></tr><tr><td class=" +:+ dq +:+ "added"
        +:+ dq +:+ "><pre>" ]
    ++ whole_file_rows numbered_added (file_content d)
    ++ [ "</pre></td></tr></table>" ],
    Ok tt ).

(** The same for a deleted file: an Old Version table, the marker [-]. *)
Definition shown_deleted (d : diff_data) : M unit :=
  ( [ file_title (file_name d);
      "<p><b>File deleted: " +:+ escape_str (file_name d) +:+ "</b></p>";
      "<table><tr><th>Old Version</th></tr><tr><td class=" +:+ dq +:+ "removed"
        +:+ dq +:+ "><pre>" ]
    ++ whole_file_rows numbered_removed (file_content d)
    ++ [ "</pre></td></tr></table>" ],
    Ok tt ).

(** Two files of one run: a modified file whose only header has the old
    start [x], and an added file. *)
Definition bad_file : diff_data :=
  {| diff := "@@ -x,2 +10,2 @@"; file_name := "a.c"; file_status := EmptyString;
     file_content := EmptyString |}.

(** A modified file: the change lines of the scenario. *)
Definition changed_file : diff_data :=
  {| diff := scenario_changes; file_name := "c.c"; file_status := EmptyString;
     file_content := EmptyString |}.

Definition good_file : diff_data :=
  {| diff := EmptyString; file_name := "b.c"; file_status := "A";
     file_content := "int x;" |}.

(** Every text that [r] matches holds the character [c]. *)
Fixpoint needs (c : ascii) (r : regex) : bool :=
  match r with
  | Chr c' => Ascii.eqb c' c
  | Cls _ | Star _ => false
  | Seq r1 r2 => needs c r1 || needs c r2
  | Alt r1 r2 => needs c r1 && needs c r2
  | Group _ r1 => needs c r1
  end.

(** The start field that the program reads from part [i] of a line: the
    piece of the part before its first comma, without its first character. *)
Definition start_field_of (i : nat) (line : string) : option string :=
  part ← split " " line !! i;
  piece ← split "," part !! 0;
  Some (tail piece).

(** The text [rest] is an end of the text [s]. *)
Definition ends (rest s : string) : Prop := exists pre, s = pre +:+ rest.

(** What stops the loop of a modified file at a line, if anything: the
    error of a header that does not parse, or the AttributeError of a line
    that starts with none of [@@], [+] and [-]. *)
Definition failure (line : string) : option exn :=
  if startswith "@@" line then
    match hunk_header line with
    | Ok _ => None
    | Raise e => Some e
    end
  else if startswith "+" line || startswith "-" line then None
  else Some AttributeError.

(** The loop of a modified file writes a row for the line. *)
Definition renders (line : string) : bool :=
  match failure line with
  | None => true
  | Some _ => false
  end.

(** The lines of a filtered diff that are hunk headers. *)
Definition header_lines (lines : list string) : list string :=
  List.filter (fun line => startswith "@@" line) lines.

(** A file whose part of the page is written to its end: an added or a
    deleted file, or a modified file all of whose lines are rendered. *)
Definition completes (d : diff_data) : bool :=
  String.eqb (file_status d) "A" || String.eqb (file_status d) "D"
  || forallb renders (lines_of (diff d)).

(** A diff of one changed line in a file that does not end with a line
    feed, as git writes it. *)
Definition no_newline_diff : string :=
  unlines ["@@ -1 +1 @@"; "-a"; "+b"; "\ No newline at end of file"].

(** A text holds a line boundary. *)
Fixpoint has_break (s : string) : bool :=
  match s with
  | EmptyString => false
  | String c r => islinebreak c || has_break r
  end.

(** How many times a character occurs in a text. *)
Fixpoint occurrences (c : ascii) (s : string) : nat :=
  match s with
  | EmptyString => 0
  | String c' r => (if Ascii.eqb c' c then 1 else 0) + occurrences c r
  end.

(** The characters that open or close markup, or delimit an attribute:
    [<], [>], the double quote and the single quote. *)
Definition markup (c : ascii) : bool :=
  Ascii.eqb c "<" || Ascii.eqb c ">" || Ascii.eqb c (ascii_of_nat 34)
  || Ascii.eqb c "'".

(** ** convert_path, create_unique_output_dir *)


(** The directories of [create_unique_output_dir] are looked up and made
    on a file system [fs], known by [os.path.exists] and by what
    [os.makedirs] leaves when it succeeds (its errors, which come from the
    operating system, are outside the model). *)
Section FileSystem.
Variable fs : Type.
Variable path_exists : fs -> string -> bool.
Variable makedirs : fs -> string -> fs.

(** The loop of lines 187 to 189, [fuel] turns of it at most: [None] when
    the loop has not ended by then. *)
Fixpoint free_dir (fuel : nat) (disk : fs) (base_dir : string) (counter : Z)
    (new_dir : string) : option string :=
  if path_exists disk new_dir then
    match fuel with
    | O => None
    | S fuel' =>
        free_dir fuel' disk base_dir (counter + 1)%Z
          (base_dir +:+ " (" +:+ str counter +:+ ")")
    end
  else Some new_dir.

(** Lines 184 to 191: the file system after the call and the directory
    returned. *)
Definition create_unique_output_dir (fuel : nat) (disk : fs) (base_dir : string)
    : option (fs * string) :=
  new_dir ← free_dir fuel disk base_dir 1%Z base_dir;
  Some (makedirs disk new_dir, new_dir).
End FileSystem.

(** The names that the loop tries, in order: the base itself, then the base
    with [ (1)], [ (2)], ... *)
Definition candidate (base_dir : string) (k : nat) : string :=
  match k with
  | O => base_dir
  | S _ => base_dir +:+ " (" +:+ str (Z.of_nat k) +:+ ")"
  end.

(** A file system as the set of the paths that exist. *)
Definition paths_exists (disk : gset string) (path : string) : bool :=
  bool_decide (path ∈ disk).

Definition paths_makedirs (disk : gset string) (path : string) : gset string :=
  {[ path ]} ∪ disk.

(** Every character of a text is of a class. *)
Fixpoint all_chars (p : ascii -> bool) (s : string) : bool :=
  match s with
  | EmptyString => true
  | String c r => p c && all_chars p r
  end.

(** An identifier: a letter or an underscore, then letters, digits and
    underscores. *)
Definition identifier (s : string) : bool :=
  match s with
  | EmptyString => false
  | String c r => isalpha_ c && all_chars isalnum_ r
  end.

(** ** The main program: the list of the files to show *)

(** [s.endswith(suffix)] *)
Fixpoint endswith (suffix s : string) : bool :=
  match s with
  | EmptyString => String.eqb suffix EmptyString
  | String _ r => String.eqb suffix s || endswith suffix r
  end.

(** A text up to its first white space, and the rest from there. *)
Fixpoint break_space (s : string) : string * string :=
  match s with
  | EmptyString => (EmptyString, EmptyString)
  | String c r =>
      if isspace c then (EmptyString, s)
      else let '(word, rest) := break_space r in (String c word, rest)
  end.

(** [s.split(maxsplit=1)]: the first run of characters that are not white
    space, and what follows it from the next such character to the end of
    the text; white space before each of the two is dropped, and a piece
    that would be empty is left out. *)
Definition split_once (s : string) : list string :=
  match lstrip isspace s with
  | EmptyString => []
  | s1 =>
      let '(word, rest) := break_space s1 in
      match lstrip isspace rest with
      | EmptyString => [word]
      | rest' => [word; rest']
      end
  end.

(** The ValueError of line 223 when a line has fewer than two fields: not
    enough values to unpack. *)
Inductive unpack_error : Type := NotEnoughValues (line : string).

(** The test of line 224. *)
Definition source_file (file_name : string) : bool :=
  endswith ".c" file_name || endswith ".h" file_name || endswith ".py" file_name.

(** Lines 221 to 233.  What git returns is given by two functions of the
    arguments of [get_file_content_at_commit] and [get_git_diff] (the
    repository does not change during the run); [commit2] is [None] with a
    single commit. *)
Section Main.
Variable get_file_content_at_commit : option string -> string -> string -> string.
Variable get_git_diff : string -> string -> string -> string -> string.

(** [commit2 if commit2 else commit1 + '^'] *)
Definition other_commit (commit1 : string) (commit2 : option string) : string :=
  match commit2 with
  | Some (String c r) => String c r
  | _ => commit1 +:+ "^"
  end.

(** One turn of the loop: the entry appended to [diffs], if any. *)
Definition diff_entry (commit1 : string) (commit2 : option string)
    (repo_path line : string) : unpack_error + option diff_data :=
  match split_once line with
  | [status; file_name] =>
      if source_file file_name then
        if String.eqb status "A" then
          let file_content := get_file_content_at_commit commit2 repo_path file_name in
          inr (Some {| diff := EmptyString; file_name := file_name;
                       file_status := "A"; file_content := file_content |})
        else if String.eqb status "D" then
          let file_content :=
            get_file_content_at_commit (Some commit1) repo_path file_name in
          inr (Some {| diff := EmptyString; file_name := file_name;
                       file_status := "D"; file_content := file_content |})
        else
          let diff :=
            get_git_diff commit1 (other_commit commit1 commit2) repo_path file_name in
          inr (Some {| diff := diff; file_name := file_name;
                       file_status := EmptyString; file_content := EmptyString |})
      else inr None
  | _ => inl (NotEnoughValues line)
  end.

Fixpoint build_diffs (commit1 : string) (commit2 : option string)
    (repo_path : string) (changed_files : list string)
    : unpack_error + list diff_data :=
  match changed_files with
  | [] => inr []
  | line :: rest =>
      match diff_entry commit1 commit2 repo_path line with
      | inl e => inl e
      | inr entry =>
          match build_diffs commit1 commit2 repo_path rest with
          | inl e => inl e
          | inr diffs =>
              inr (match entry with Some d => d :: diffs | None => diffs end)
          end
      end
  end.
End Main.

(** The file name on a line of the list of changed files. *)
Definition name_on (line : string) : string :=
  match split_once line with
  | [_; file_name] => file_name
  | _ => EmptyString
  end.

(** An entry as the main program builds them. *)
Definition built_entry (d : diff_data) : bool :=
  source_file (file_name d)
  && (((String.eqb (file_status d) "A" || String.eqb (file_status d) "D")
       && String.eqb (diff d) EmptyString)
      || (String.eqb (file_status d) EmptyString
          && String.eqb (file_content d) EmptyString)).

(** A line of the list of changed files has its two fields. *)
Definition two_fields (line : string) : bool :=
  match split_once line with
  | [_; _] => true
  | _ => false
  end.

(** A header line whose two ranges start with any two characters in the
    place of [-] and [+]. *)
Definition signed_header (sign1 sign2 : ascii) (o oc n nc tr : string) : string :=
  "@@ " +:+ String sign1 (o +:+ oc) +:+ " " +:+ String sign2 (n +:+ nc) +:+ tr.

(** A character that is neither a space nor a comma. *)
Definition sign_char (c : ascii) : bool :=
  negb (Ascii.eqb c " ") && negb (Ascii.eqb c ",").

(** A line that reads as one of the two file lines that git writes before
    the hunks: in a hunk, a removed line whose text starts with [-- ] or an
    added line whose text starts with [++ ]. *)
Definition file_marker (line : string) : bool :=
  startswith "--- " line || startswith "+++ " line.

(** A diff with changed lines before its first header, one of them a file
    line of git. *)
Definition headless : string :=
  unlines ["--- a/x.py"; "+a"; "+b"; "-c"; "@@ -1 +1 @@"; "+d"].

(** The lines that git writes before the first hunk of the diff of one
    file. *)
Definition git_header (path index : string) : list string :=
  [ "diff --git a/" +:+ path +:+ " b/" +:+ path;
    "index " +:+ index;
    "--- a/" +:+ path;
    "+++ b/" +:+ path ].

(** The diff of one file as git writes it: its header, then its hunks. *)
Definition file_diff (path index : string) (hs : list hunk) : string :=
  unlines (git_header path index ++ hunks_lines hs).

(** The count of the specification: the added and the removed records of
    all the hunks. *)
Definition records_count (hs : list hunk) : nat :=
  count_kind Added (hunks_bodies hs) + count_kind Removed (hunks_bodies hs).

(** The line of the page that reports a count. *)
Definition written_count (n : nat) : string :=
  "<p><b>Farklılık Sayısı: " +:+ str (Z.of_nat n) +:+ "</b></p>".

(** Two lines removed from a file of SQL, the first of them a comment. *)
Definition sql_hunks : list hunk :=
  [("@@ -3,2 +2,0 @@", ["--- a comment"; "-x = 1"])].

Definition sql_diff : string := file_diff "q.sql" "83db48f..bf2a1c9 100644" sql_hunks.

(** * Properties *)

(** ** The writer and its loops *)

Lemma bind_ok {A B : Type} (m : M A) (k : A -> M B) out a :
  m = (out, Ok a) -> bind m k = (out ++ fst (k a), snd (k a)).
Proof. intros ->. simpl. destruct (k a). reflexivity. Qed.

Section Loops.
Context {A S : Type}.
Variable body : S -> A -> M S.
Variable each : A -> M unit.

Lemma for_fold_app (l1 l2 : list A) (st : S) :
  for_fold (l1 ++ l2) st body
  = bind (for_fold l1 st body) (fun st' => for_fold l2 st' body).
Proof.
  revert st. induction l1 as [|x l1 IH]; intros st; simpl.
  - destruct (for_fold l2 st body). reflexivity.
  - destruct (body st x) as [o [s|e]]; simpl; [rewrite IH|reflexivity].
    destruct (for_fold l1 s body) as [o1 [s1|e1]]; simpl; [|reflexivity].
    destruct (for_fold l2 s1 body). rewrite app_assoc. reflexivity.
Qed.

(** The turns before a turn that raises are the whole loop. *)
Lemma for_fold_raise (l1 l2 : list A) (x : A) (st st' : S) out out' e :
  for_fold l1 st body = (out, Ok st') ->
  body st' x = (out', Raise e) ->
  for_fold (l1 ++ x :: l2) st body = (out ++ out', Raise e).
Proof.
  intros H1 Hx. rewrite for_fold_app, (bind_ok _ _ _ _ H1). simpl.
  rewrite Hx. reflexivity.
Qed.

Lemma for_each_app (l1 l2 : list A) :
  for_each (l1 ++ l2) each = bind (for_each l1 each) (fun _ => for_each l2 each).
Proof.
  induction l1 as [|x l1 IH]; simpl.
  - destruct (for_each l2 each). reflexivity.
  - destruct (each x) as [o [[]|e]]; simpl; [rewrite IH|reflexivity].
    destruct (for_each l1 each) as [o1 [[]|e1]]; simpl; [|reflexivity].
    destruct (for_each l2 each). rewrite app_assoc. reflexivity.
Qed.

Lemma for_each_raise (l1 l2 : list A) (x : A) out out' e :
  for_each l1 each = (out, Ok tt) ->
  each x = (out', Raise e) ->
  for_each (l1 ++ x :: l2) each = (out ++ out', Raise e).
Proof.
  intros H1 Hx. rewrite for_each_app, (bind_ok _ _ _ _ H1). simpl.
  rewrite Hx. reflexivity.
Qed.
End Loops.

(** A loop of writes alone cannot raise. *)
Lemma for_each_write {A : Type} (f : A -> string) (l : list A) :
  for_each l (fun x => write (f x)) = (map f l, Ok tt).
Proof.
  induction l as [|x l IH]; simpl; [reflexivity|]. rewrite IH. reflexivity.
Qed.

(** ** Texts *)

Lemma append_String (c : ascii) (a b : string) :
  String c a +:+ b = String c (a +:+ b).
Proof. reflexivity. Qed.

Lemma append_nil_l (b : string) : EmptyString +:+ b = b.
Proof. reflexivity. Qed.

Lemma append_nil_r (s : string) : s +:+ EmptyString = s.
Proof.
  induction s as [|c s IH]; [reflexivity|].
  rewrite append_String, IH. reflexivity.
Qed.

Lemma append_assoc (a b c : string) : (a +:+ b) +:+ c = a +:+ (b +:+ c).
Proof.
  induction a as [|x a IH]; [reflexivity|].
  rewrite !append_String, IH. reflexivity.
Qed.

Lemma has_char_app (c : ascii) (a b : string) :
  has_char c (a +:+ b) = has_char c a || has_char c b.
Proof.
  induction a as [|x a IH]; [reflexivity|].
  rewrite append_String. simpl. rewrite IH, orb_assoc. reflexivity.
Qed.

(** Splitting stops at the first separator. *)
Lemma split_app (sep : ascii) (a b : string) :
  has_char sep a = false ->
  split sep (a +:+ String sep b) = a :: split sep b.
Proof.
  induction a as [|c a IH]; intros H.
  - rewrite append_nil_l. simpl. rewrite Ascii.eqb_refl. reflexivity.
  - simpl in H. apply orb_false_elim in H as [Hc Ha].
    rewrite append_String. simpl. rewrite Hc, (IH Ha). reflexivity.
Qed.

Lemma split_sep_free (sep : ascii) (a : string) :
  has_char sep a = false -> split sep a = [a].
Proof.
  induction a as [|c a IH]; simpl; intros H; [reflexivity|].
  apply orb_false_elim in H as [Hc Ha]. rewrite Hc, (IH Ha). reflexivity.
Qed.

Lemma split_first (sep : ascii) (a t : string) :
  has_char sep a = false -> empty_or_sep sep t = true ->
  exists rest, split sep (a +:+ t) = a :: rest.
Proof.
  intros Ha Ht. destruct t as [|c t]; simpl in Ht.
  - rewrite append_nil_r, (split_sep_free _ _ Ha). eauto.
  - apply Ascii.eqb_eq in Ht as ->. rewrite (split_app _ _ _ Ha). eauto.
Qed.

Lemma count_field_sep (c : string) :
  count_field c = true -> empty_or_sep "," c = true /\ has_char " " c = false.
Proof.
  destruct c as [|c0 w]; simpl; [auto|].
  intros [H0 Hw]%andb_prop. split; [exact H0|].
  apply Ascii.eqb_eq in H0 as ->. simpl.
  apply negb_true_iff in Hw. exact Hw.
Qed.

Lemma start_field_chars (o : string) :
  start_field o = true -> has_char " " o = false /\ has_char "," o = false.
Proof.
  unfold start_field. intros [H1 H2]%andb_prop.
  apply negb_true_iff in H1, H2. auto.
Qed.

(** ** The header of a hunk *)

Section Header.
Variables o oc n nc tr : string.
Hypothesis Ho : start_field o = true.
Hypothesis Hoc : count_field oc = true.
Hypothesis Hn : start_field n = true.
Hypothesis Hnc : count_field nc = true.
Hypothesis Htr : header_rest tr = true.

(** The parts of the line at its spaces. *)
Lemma header_parts :
  exists rest,
    split " " (header_line o oc n nc tr)
    = "@@" :: ("-" +:+ o +:+ oc) :: ("+" +:+ n +:+ nc) :: rest.
Proof.
  destruct (start_field_chars _ Ho) as [Ho1 _].
  destruct (start_field_chars _ Hn) as [Hn1 _].
  destruct (count_field_sep _ Hoc) as [_ Hoc1].
  destruct (count_field_sep _ Hnc) as [_ Hnc1].
  destruct (split_first " " ("+" +:+ n +:+ nc) tr) as [rest Hrest].
  { rewrite !has_char_app, Hn1, Hnc1. reflexivity. }
  { exact Htr. }
  exists rest. unfold header_line.
  change ("@@ -" +:+ o +:+ oc +:+ " +" +:+ n +:+ nc +:+ tr)
    with ("@@" +:+ String " " ("-" +:+ o +:+ oc +:+ String " " ("+" +:+ n +:+ nc +:+ tr))).
  rewrite split_app by reflexivity. f_equal.
  replace ("-" +:+ o +:+ oc +:+ String " " ("+" +:+ n +:+ nc +:+ tr))
    with (("-" +:+ o +:+ oc) +:+ String " " ("+" +:+ n +:+ nc +:+ tr))
    by (rewrite !append_assoc; reflexivity).
  rewrite split_app.
  - f_equal. rewrite <- Hrest, !append_assoc. reflexivity.
  - rewrite !has_char_app, Ho1, Hoc1. reflexivity.
Qed.

(** The piece of a part before its first comma, without the sign. *)
Lemma header_part_field (sign : ascii) (f c : string) :
  Ascii.eqb sign "," = false ->
  start_field f = true -> count_field c = true ->
  exists rest, split "," (String sign EmptyString +:+ f +:+ c)
               = (String sign EmptyString +:+ f) :: rest.
Proof.
  intros Hs Hf Hc.
  destruct (start_field_chars _ Hf) as [_ Hf2].
  destruct (count_field_sep _ Hc) as [Hc1 _].
  destruct (split_first "," (String sign EmptyString +:+ f) c) as [rest Hrest].
  { rewrite has_char_app, Hf2. simpl. rewrite Hs. reflexivity. }
  { exact Hc1. }
  exists rest. rewrite <- Hrest, append_assoc. reflexivity.
Qed.

(** The header yields the integers of its two start fields, or the error
    of the first that [int] refuses. *)
Lemma hunk_header_line :
  hunk_header (header_line o oc n nc tr)
  = match int o with
    | Raise e => Raise e
    | Ok a =>
        match int n with
        | Raise e => Raise e
        | Ok b => Ok (a, b)
        end
    end.
Proof.
  destruct header_parts as [rest Hparts]. unfold hunk_header.
  rewrite Hparts.
  destruct (header_part_field "-" o oc eq_refl Ho Hoc) as [r1 H1].
  destruct (header_part_field "+" n nc eq_refl Hn Hnc) as [r2 H2].
  change (index ("@@" :: ("-" +:+ o +:+ oc) :: ("+" +:+ n +:+ nc) :: rest) 1)
    with (Ok (A := string) ("-" +:+ o +:+ oc)).
  change (index ("@@" :: ("-" +:+ o +:+ oc) :: ("+" +:+ n +:+ nc) :: rest) 2)
    with (Ok (A := string) ("+" +:+ n +:+ nc)).
  cbn [and_then]. rewrite H1.
  change (index (("-" +:+ o) :: r1) 0) with (Ok (A := string) ("-" +:+ o)).
  cbn [and_then]. change (tail ("-" +:+ o)) with o.
  destruct (int o) as [a|e]; cbn [and_then]; [|reflexivity].
  rewrite H2.
  change (index (("+" +:+ n) :: r2) 0) with (Ok (A := string) ("+" +:+ n)).
  cbn [and_then]. change (tail ("+" +:+ n)) with n.
  destruct (int n); reflexivity.
Qed.
End Header.

(** ** The rows of a modified file *)

Lemma row_step_two_one : row_step_two = row_step_one.
Proof. reflexivity. Qed.

Lemma modified_two_one : modified_two = modified_one.
Proof. reflexivity. Qed.

Lemma row_step_plus (old_line_num new_line_num : Z) (text : string) :
  row_step_one (old_line_num, new_line_num) ("+" +:+ text)
  = ([row_old_only old_line_num text], Ok ((old_line_num + 1)%Z, new_line_num)).
Proof. reflexivity. Qed.

Lemma row_step_minus (old_line_num new_line_num : Z) (text : string) :
  row_step_one (old_line_num, new_line_num) ("-" +:+ text)
  = ([row_new_only new_line_num text], Ok (old_line_num, (new_line_num + 1)%Z)).
Proof. reflexivity. Qed.

Lemma row_step_header (st : Z * Z) (line : string) :
  startswith "@@" line = true ->
  row_step_one st line
  = match hunk_header line with
    | Ok st' => ([row_boundary], Ok st')
    | Raise e => ([], Raise e)
    end.
Proof.
  intros H. destruct st as [old_line_num new_line_num]. unfold row_step_one.
  rewrite H. destruct (hunk_header line) as [[a b]|e]; reflexivity.
Qed.

Lemma header_line_startswith (o oc n nc tr : string) :
  startswith "@@" (header_line o oc n nc tr) = true.
Proof. reflexivity. Qed.

(** A modified file: the head of its table, the rows, and the end of the
    table when no row raised. *)
Lemma modified_one_rows (diff : string) :
  modified_one diff
  = match for_fold (lines_of diff) (0%Z, 0%Z) row_step_one with
    | (rows, Ok _) => (table_head diff ++ rows ++ ["</table>"], Ok tt)
    | (rows, Raise e) => (table_head diff ++ rows, Raise e)
    end.
Proof.
  unfold modified_one. fold (lines_of diff).
  destruct (for_fold (lines_of diff) (0%Z, 0%Z) row_step_one) as [rows [st|e]];
    reflexivity.
Qed.

Lemma hunk_header_refused (o oc n nc tr : string) :
  start_field o = true -> count_field oc = true ->
  start_field n = true -> count_field nc = true -> header_rest tr = true ->
  int_of o = None \/ int_of n = None ->
  hunk_header (header_line o oc n nc tr) = Raise (refused o n).
Proof.
  intros Ho Hoc Hn Hnc Htr H.
  rewrite (hunk_header_line o oc n nc tr Ho Hoc Hn Hnc Htr).
  unfold refused, int. destruct (int_of o) as [a|]; [|reflexivity].
  destruct H as [H|H]; [discriminate|]. rewrite H. reflexivity.
Qed.

(** *** C1 *)



(** *** C2 *)

(** C2, as amended.  For the hunk of the scenario the difference count is 3,
    in both branches: its body has one [-] line and two [+] lines.  The
    change lines of the hunk, directly after the header, are written in
    order as a New Version row numbered 10 with [old line], an Old Version
    row numbered 10 with [new line A] and an Old Version row numbered 11 with
    [new line B]. *)
Theorem C2_scenario_count_and_change_rows :
  difference_count (lines_of scenario) = 3
  /\ fst (modified_one scenario) !! 0 = Some "<p><b>Farklılık Sayısı: 3</b></p>"
  /\ fst (modified_two scenario) !! 0 = Some "<p><b>Farklılık Sayısı: 3</b></p>"
  /\ for_fold (lines_of scenario_changes) (0%Z, 0%Z) row_step_one
     = ([row_boundary; row_new_only 10 "old line"; row_old_only 10 "new line A";
         row_old_only 11 "new line B"], Ok (12%Z, 11%Z))
  /\ for_fold (lines_of scenario_changes) (0%Z, 0%Z) row_step_two
     = ([row_boundary; row_new_only 10 "old line"; row_old_only 10 "new line A";
         row_old_only 11 "new line B"], Ok (12%Z, 11%Z)).
Proof. repeat split; vm_compute; reflexivity. Qed.

(** C2, as stated, fails: the count written for the scenario is 3 and not 2,
    and after the boundary row of the header no row is written at all, since
    the context line raises. *)
Lemma C2_scenario_is_not_four_rows_and_two :
  difference_count (lines_of scenario) = 3
  /\ modified_one scenario = (table_head scenario ++ [row_boundary], Raise AttributeError)
  /\ modified_two scenario = (table_head scenario ++ [row_boundary], Raise AttributeError).
Proof. repeat split; vm_compute; reflexivity. Qed.

(** *** C3 *)

(** C3, as amended.  In both branches, when a header of a modified file has
    a start field that [int] refuses, the file fails with the ValueError of
    that conversion, which carries the start field and not the line; no row
    is written for the header or for a later line, and the head of the table
    and the rows of the lines before the header stay written. *)
Theorem C3_malformed_header_stops_the_file (diff : string)
    (pre post rows : list string) (st : Z * Z) (o oc n nc tr : string) :
  start_field o = true -> count_field oc = true ->
  start_field n = true -> count_field nc = true -> header_rest tr = true ->
  int_of o = None \/ int_of n = None ->
  lines_of diff = pre ++ header_line o oc n nc tr :: post ->
  for_fold pre (0%Z, 0%Z) row_step_one = (rows, Ok st) ->
  modified_one diff = (table_head diff ++ rows, Raise (refused o n))
  /\ modified_two diff = (table_head diff ++ rows, Raise (refused o n)).
Proof.
  intros Ho Hoc Hn Hnc Htr Hint Hlines Hpre.
  rewrite modified_two_one, modified_one_rows, Hlines.
  rewrite (for_fold_raise row_step_one pre post _ _ st rows [] (refused o n) Hpre).
  - rewrite app_nil_r. auto.
  - rewrite row_step_header by apply header_line_startswith.
    rewrite hunk_header_refused by assumption. reflexivity.
Qed.

Lemma C3_malformed_header_stops_the_file_witness :
  modified_one malformed
    = (table_head malformed ++ [row_boundary; row_old_only 1 "a"],
       Raise (refused "x" "10"))
  /\ modified_two malformed
    = (table_head malformed ++ [row_boundary; row_old_only 1 "a"],
       Raise (refused "x" "10")).
Proof.
  apply (C3_malformed_header_stops_the_file malformed
           ["@@ -1 +1 @@"; "+a"] ["+b"] [row_boundary; row_old_only 1 "a"]
           (2%Z, 1%Z) "x" ",2" "10" ",2" " @@");
    try reflexivity.
  left. reflexivity.
Defined.

(** C3, as stated, fails: before the header [@@ -x,2 +10,2 @@] the rows of
    the first hunk are written and stay in the file, and the error carries
    the text [x], not the line. *)
Lemma C3_rows_before_malformed_header_stay :
  modified_one malformed
    = (table_head malformed ++ [row_boundary; row_old_only 1 "a"],
       Raise (ValueError "x"))
  /\ ValueError "x" <> ValueError "@@ -x,2 +10,2 @@".
Proof. split; [vm_compute; reflexivity|]. intros H. discriminate H. Qed.

(** *** C8 *)

(** C8, as stated, fails: the diff [+a], a body line with no header before
    it, is written as a row numbered 0 and the file ends without an error. *)
Lemma C8_row_without_header :
  modified_one "+a" = (table_head "+a" ++ [row_old_only 0 "a"; "</table>"], Ok tt)
  /\ modified_two "+a" = (table_head "+a" ++ [row_old_only 0 "a"; "</table>"], Ok tt).
Proof. split; vm_compute; reflexivity. Qed.

(** *** C10 *)

(** The header parses exactly when the program finds both start fields and
    [int] accepts them. *)
Lemma hunk_header_ok_iff (line : string) (a b : Z) :
  hunk_header line = Ok (a, b)
  <-> (start_field_of 1 line ≫= int_of = Some a
       /\ start_field_of 2 line ≫= int_of = Some b).
Proof.
  unfold hunk_header, start_field_of, index, int, and_then.
  destruct (split " " line !! 1) as [p1|]; cbn; [|intuition discriminate].
  destruct (split "," p1 !! 0) as [f1|]; cbn; [|intuition discriminate].
  destruct (int_of (tail f1)) as [a'|]; cbn; [|intuition discriminate].
  destruct (split " " line !! 2) as [p2|]; cbn; [|intuition discriminate].
  destruct (split "," p2 !! 0) as [f2|]; cbn; [|intuition discriminate].
  destruct (int_of (tail f2)) as [b'|]; cbn; [|intuition discriminate].
  intuition congruence.
Qed.

(** C10.  For every line, the header parses exactly when both start fields
    that the program reads are there and are integers for [int]; otherwise
    it raises.  In a header [@@ -o[,count] +n[,count][ rest]] the start
    fields read are [o] and [n], the result is their integers or the error
    of the first one that [int] refuses, and the count fields and the rest
    of the line may be absent or any text: two headers with the same start
    fields give the same rows, in both loops. *)
Theorem C10_header_reads_start_fields (line : string) (a b : Z)
    (o oc n nc tr oc' nc' tr' : string) (st : Z * Z) (body : list string) :
  start_field o = true -> start_field n = true ->
  count_field oc = true -> count_field nc = true -> header_rest tr = true ->
  count_field oc' = true -> count_field nc' = true -> header_rest tr' = true ->
  (hunk_header line = Ok (a, b)
   <-> (start_field_of 1 line ≫= int_of = Some a
        /\ start_field_of 2 line ≫= int_of = Some b))
  /\ ((exists e, hunk_header line = Raise e)
      <-> (start_field_of 1 line ≫= int_of = None
           \/ start_field_of 2 line ≫= int_of = None))
  /\ hunk_header (header_line o oc n nc tr)
     = match int_of o, int_of n with
       | Some a, Some b => Ok (a, b)
       | _, _ => Raise (refused o n)
       end
  /\ for_fold (header_line o oc n nc tr :: body) st row_step_one
     = for_fold (header_line o oc' n nc' tr' :: body) st row_step_one
  /\ for_fold (header_line o oc n nc tr :: body) st row_step_two
     = for_fold (header_line o oc' n nc' tr' :: body) st row_step_two.
Proof.
  intros Ho Hn Hoc Hnc Htr Hoc' Hnc' Htr'.
  pose proof (hunk_header_line o oc n nc tr Ho Hoc Hn Hnc Htr) as H.
  pose proof (hunk_header_line o oc' n nc' tr' Ho Hoc' Hn Hnc' Htr') as H'.
  split; [apply hunk_header_ok_iff|]. split; [|split].
  - destruct (hunk_header line) as [[x y]|e] eqn:E.
    + apply hunk_header_ok_iff in E as [E1 E2]. rewrite E1, E2.
      split; [intros [e He]; discriminate|intros [Hx|Hx]; discriminate].
    + split; [intros _|eauto].
      destruct (start_field_of 1 line ≫= int_of) as [x|] eqn:E1; [|auto].
      destruct (start_field_of 2 line ≫= int_of) as [y|] eqn:E2; [|auto].
      assert (hunk_header line = Ok (x, y)) as Hok
        by (apply hunk_header_ok_iff; auto).
      congruence.
  - rewrite H. unfold int, refused.
    destruct (int_of o); [destruct (int_of n)|]; reflexivity.
  - rewrite row_step_two_one. simpl for_fold.
    rewrite !row_step_header by apply header_line_startswith.
    rewrite H, H'. auto.
Qed.

Lemma C10_header_reads_start_fields_witness :
  (hunk_header "@@ -10,x +10 @@" = Ok (10%Z, 10%Z)
   <-> (start_field_of 1 "@@ -10,x +10 @@" ≫= int_of = Some 10%Z
        /\ start_field_of 2 "@@ -10,x +10 @@" ≫= int_of = Some 10%Z))
  /\ ((exists e, hunk_header "@@ -10,x +10 @@" = Raise e)
      <-> (start_field_of 1 "@@ -10,x +10 @@" ≫= int_of = None
           \/ start_field_of 2 "@@ -10,x +10 @@" ≫= int_of = None))
  /\ hunk_header (header_line "10" ",x" "10" EmptyString " @@")
     = match int_of "10", int_of "10" with
       | Some a, Some b => Ok (a, b)
       | _, _ => Raise (refused "10" "10")
       end
  /\ for_fold (header_line "10" ",x" "10" EmptyString " @@" :: ["+a"]) (0%Z, 0%Z)
       row_step_one
     = for_fold (header_line "10" ",2" "10" ",3" " @@ def f" :: ["+a"]) (0%Z, 0%Z)
         row_step_one
  /\ for_fold (header_line "10" ",x" "10" EmptyString " @@" :: ["+a"]) (0%Z, 0%Z)
       row_step_two
     = for_fold (header_line "10" ",2" "10" ",3" " @@ def f" :: ["+a"]) (0%Z, 0%Z)
         row_step_two.
Proof.
  apply (C10_header_reads_start_fields "@@ -10,x +10 @@" 10 10
           "10" ",x" "10" EmptyString " @@" ",2" ",3" " @@ def f");
    reflexivity.
Defined.

(** ** Whole files *)

Lemma enumerate_imap {A B : Type} (f : Z -> A -> B) (l : list A) (start : Z) :
  map (fun p => f (fst p) (snd p)) (enumerate l start)
  = imap (fun k x => f (start + Z.of_nat k)%Z x) l.
Proof.
  revert start. induction l as [|x l IH]; intros start; [reflexivity|].
  simpl. rewrite Z.add_0_r. f_equal. rewrite IH.
  apply imap_ext. intros k y _. simpl. f_equal. lia.
Qed.

Lemma for_each_enumerate (fmt : Z -> string -> string) (file_content : string) :
  for_each (enumerate (splitlines file_content) 1)
    (fun '(i, line) => write (fmt i line))
  = (whole_file_rows fmt file_content, Ok tt).
Proof.
  unfold whole_file_rows. rewrite <- enumerate_imap.
  rewrite <- (for_each_write (fun p => fmt (fst p) (snd p))).
  generalize (enumerate (splitlines file_content) 1). intros l.
  induction l as [|[i line] l IH]; [reflexivity|].
  simpl. rewrite IH. reflexivity.
Qed.

Lemma added_block_shown (d : diff_data) :
  bind (write (file_title (file_name d)))
       (fun _ => added_block (file_name d) (file_content d))
  = shown_added d.
Proof.
  unfold added_block, shown_added.
  rewrite (bind_ok _ _ [file_title (file_name d)] tt eq_refl).
  rewrite (bind_ok (write _) _ _ tt eq_refl).
  rewrite (bind_ok (write _) _ _ tt eq_refl).
  rewrite (bind_ok _ _ _ tt (for_each_enumerate numbered_added (file_content d))).
  reflexivity.
Qed.

Lemma deleted_block_shown (d : diff_data) :
  bind (write (file_title (file_name d)))
       (fun _ => deleted_block (file_name d) (file_content d))
  = shown_deleted d.
Proof.
  unfold deleted_block, shown_deleted.
  rewrite (bind_ok _ _ [file_title (file_name d)] tt eq_refl).
  rewrite (bind_ok (write _) _ _ tt eq_refl).
  rewrite (bind_ok (write _) _ _ tt eq_refl).
  rewrite (bind_ok _ _ _ tt (for_each_enumerate numbered_removed (file_content d))).
  reflexivity.
Qed.

(** *** C5 *)

(** C5, as amended.  With a single commit a file of status A is written as
    one block of added rows (New Version, marker [+]) and a file of status D
    as one block of removed rows (Old Version, marker [-]); with two commits
    the statuses change places: status D is written as the block of added
    rows and status A as the block of removed rows.  In the four cases the
    diff is not read, and the rows are the lines of the file content,
    stripped, numbered from 1 upwards. *)
Theorem C5_whole_file_blocks (d : diff_data) :
  (file_status d = "A" -> file_body true d = shown_added d)
  /\ (file_status d = "D" -> file_body true d = shown_deleted d)
  /\ (file_status d = "D" -> file_body false d = shown_added d)
  /\ (file_status d = "A" -> file_body false d = shown_deleted d).
Proof.
  unfold file_body.
  repeat split; intros ->; simpl;
    first [apply added_block_shown | apply deleted_block_shown].
Qed.

Lemma C5_whole_file_blocks_witness :
  file_body true good_file = shown_added good_file
  /\ file_body false good_file = shown_deleted good_file.
Proof.
  destruct (C5_whole_file_blocks good_file) as (H1 & _ & _ & H4).
  split; [apply H1|apply H4]; reflexivity.
Defined.

(** C5, as stated, fails with two commits: a file of status A is written
    there as the block of removed rows of the Old Version table. *)
Lemma C5_two_commits_status_A_is_removed :
  file_body false good_file
  = ( [ file_title "b.c"; "<p><b>File deleted: b.c</b></p>";
        "<table><tr><th>Old Version</th></tr><tr><td class=" +:+ dq +:+ "removed"
          +:+ dq +:+ "><pre>";
        numbered_removed 1 "int x;"; "</pre></td></tr></table>" ], Ok tt )
  /\ file_body false good_file <> shown_added good_file.
Proof. split; [reflexivity|]. intros H. vm_compute in H. discriminate H. Qed.

(** *** C9 *)

(** C9.  For a file that is neither added nor deleted what is written is
    the same with a single commit and with two: the two branches for a
    modified file compute the same function of the diff. *)
Theorem C9_modified_branches_agree (d : diff_data) :
  file_status d <> "A" -> file_status d <> "D" ->
  modified_one (diff d) = modified_two (diff d)
  /\ file_body true d = file_body false d.
Proof.
  intros HA HD. split; [reflexivity|]. unfold file_body.
  destruct (String.eqb_spec (file_status d) "A") as [E|_]; [contradiction|].
  destruct (String.eqb_spec (file_status d) "D") as [E|_]; [contradiction|].
  reflexivity.
Qed.

Lemma C9_modified_branches_agree_witness :
  modified_one (diff changed_file) = modified_two (diff changed_file)
  /\ file_body true changed_file = file_body false changed_file.
Proof. apply (C9_modified_branches_agree changed_file); discriminate. Defined.

(** *** C4 *)

(** C4, as amended.  An error raised by one file stops the run: the one
    handler of [write_diff_to_html] catches it and prints it; the file holds
    the head of the page, the files before the failing one and what the
    failing file wrote before the error, and neither a later file nor the
    end of the page. *)
Theorem C4_error_stops_the_run (oneArgument : bool) (before after : list diff_data)
    (d : diff_data) (out_before out_d : list string) (e : exn) :
  for_each before (file_body oneArgument) = (out_before, Ok tt) ->
  file_body oneArgument d = (out_d, Raise e) ->
  write_diff_to_html oneArgument (before ++ d :: after)
  = (page_head ++ out_before ++ out_d, Some e).
Proof.
  intros Hb Hd. unfold write_diff_to_html.
  rewrite (for_each_raise (file_body oneArgument) before after d _ _ e Hb Hd).
  reflexivity.
Qed.

Lemma C4_error_stops_the_run_witness :
  write_diff_to_html true ([good_file] ++ bad_file :: [good_file])
  = (page_head ++ fst (shown_added good_file)
       ++ (file_title "a.c" :: table_head (diff bad_file)),
     Some (ValueError "x")).
Proof.
  apply (C4_error_stops_the_run true [good_file] [good_file] bad_file);
    vm_compute; reflexivity.
Defined.

(** C4, as stated, fails: in the run of [bad_file] and then [good_file] the
    error of the first file ends the run, and the second file is not in the
    output, which it is when it runs alone. *)
Lemma C4_later_file_is_not_written :
  write_diff_to_html true [bad_file; good_file]
    = (page_head ++ file_title "a.c" :: table_head (diff bad_file),
       Some (ValueError "x"))
  /\ ~ In (file_title "b.c") (fst (write_diff_to_html true [bad_file; good_file]))
  /\ In (file_title "b.c") (fst (write_diff_to_html true [good_file])).
Proof.
  split; [vm_compute; reflexivity|]. split.
  - intros H. vm_compute in H. intuition discriminate.
  - vm_compute. auto 20.
Qed.

(** ** The difference count *)

Lemma header_is_no_change (line : string) :
  startswith "@@" line = true ->
  startswith "-" line = false /\ startswith "+" line = false.
Proof.
  destruct line as [|c line]; [discriminate|]. cbn [startswith].
  intros [Hc _]%andb_prop. apply Ascii.eqb_eq in Hc as <-.
  split; reflexivity.
Qed.

#[local] Arguments startswith : simpl never.

(** The sum of the program counts the added and the removed records. *)
Lemma difference_count_kinds (lines : list string) :
  difference_count lines
  = count_kind Added (body_lines lines) + count_kind Removed (body_lines lines).
Proof.
  unfold difference_count, count_kind, body_lines.
  induction lines as [|line lines IH]; [reflexivity|]. simpl.
  destruct (startswith "@@" line) eqn:Hh; simpl.
  - destruct (header_is_no_change line Hh) as [-> ->]. simpl. exact IH.
  - assert (kind_of line = if startswith "+" line then Added
                           else if startswith "-" line then Removed else Context)
      as Hk by reflexivity.
    destruct (startswith "+" line), (startswith "-" line);
      rewrite Hk; simpl; lia.
Qed.

Lemma body_lines_app (l1 l2 : list string) :
  body_lines (l1 ++ l2) = body_lines l1 ++ body_lines l2.
Proof. unfold body_lines. apply List.filter_app. Qed.

Lemma body_lines_body (body : list string) :
  forallb (fun line => negb (startswith "@@" line)) body = true ->
  body_lines body = body.
Proof.
  unfold body_lines. induction body as [|line body IH]; [reflexivity|].
  simpl. intros [Hl Hb]%andb_prop. rewrite Hl, (IH Hb). reflexivity.
Qed.

(** The body lines of hunks laid end to end are their bodies. *)
Lemma body_lines_hunks (hs : list hunk) :
  well_split hs = true -> body_lines (hunks_lines hs) = hunks_bodies hs.
Proof.
  unfold well_split, hunks_lines, hunks_bodies.
  induction hs as [|[header body] hs IH]; [reflexivity|].
  simpl. intros [[Hh Hb]%andb_prop Hhs]%andb_prop.
  rewrite body_lines_app, (IH Hhs).
  unfold hunk_lines, body_lines. simpl. rewrite Hh. simpl.
  f_equal. apply (body_lines_body body Hb).
Qed.

(** ** The function names *)

Lemma ends_refl (s : string) : ends s s.
Proof. exists EmptyString. reflexivity. Qed.

Lemma ends_String (c : ascii) (rest s : string) : ends rest s -> ends rest (String c s).
Proof. intros [pre ->]. exists (String c pre). reflexivity. Qed.

Lemma ends_trans (a b c : string) : ends a b -> ends b c -> ends a c.
Proof.
  intros [p ->] [q ->]. exists (q +:+ p). rewrite append_assoc. reflexivity.
Qed.

Lemma has_char_ends (c : ascii) (rest s : string) :
  ends rest s -> has_char c rest = true -> has_char c s = true.
Proof. intros [pre ->] H. rewrite has_char_app, H. apply orb_true_r. Qed.

(** What follows a star is matched on an end of the text. *)
Lemma star_rest {A : Type} (p : ascii -> bool) (s : string)
    (k : string -> option A) (m : A) :
  star p s k = Some m -> exists rest, ends rest s /\ k rest = Some m.
Proof.
  induction s as [|c s IH]; cbn [star]; intros H.
  - exists EmptyString. split; [apply ends_refl|exact H].
  - destruct (p c).
    + destruct (star p s k) as [x|] eqn:E.
      * destruct (IH H) as (rest & He & Hk). exists rest.
        split; [apply ends_String, He|exact Hk].
      * exists (String c s). split; [apply ends_refl|exact H].
    + exists (String c s). split; [apply ends_refl|exact H].
Qed.

(** What follows a regular expression is matched on an end of the text. *)
Lemma matches_rest (r : regex) :
  forall s caps k m,
    matches r s caps k = Some m ->
    exists rest caps', ends rest s /\ k rest caps' = Some m.
Proof.
  induction r as [c|p|p|r1 IH1 r2 IH2|r1 IH1 r2 IH2|n r1 IH1];
    intros s caps k m H; cbn [matches] in H.
  - destruct s as [|c' s]; [discriminate|].
    destruct (Ascii.eqb c' c); [|discriminate].
    exists s, caps. split; [apply ends_String, ends_refl|exact H].
  - destruct s as [|c' s]; [discriminate|].
    destruct (p c'); [|discriminate].
    exists s, caps. split; [apply ends_String, ends_refl|exact H].
  - apply star_rest in H as (rest & He & Hk). eauto.
  - apply IH1 in H as (rest1 & caps1 & He1 & H1).
    apply IH2 in H1 as (rest2 & caps2 & He2 & H2).
    exists rest2, caps2. split; [exact (ends_trans _ _ _ He2 He1)|exact H2].
  - destruct (matches r1 s caps k) as [x|] eqn:E.
    + apply IH1 in E as (rest & caps' & He & Hk).
      exists rest, caps'. split; [exact He|congruence].
    + apply IH2 in H. exact H.
  - apply IH1 in H as (rest & caps' & He & Hk). eauto.
Qed.

(** A regular expression that needs a character matches only texts that
    hold it. *)
Lemma matches_needs (c : ascii) (r : regex) :
  needs c r = true ->
  forall s caps k m, matches r s caps k = Some m -> has_char c s = true.
Proof.
  induction r as [c0|p|p|r1 IH1 r2 IH2|r1 IH1 r2 IH2|n r1 IH1];
    cbn [needs]; intros Hn s caps k m H; cbn [matches] in H.
  - destruct s as [|c' s]; [discriminate|].
    destruct (Ascii.eqb c' c0) eqn:E; [|discriminate].
    apply Ascii.eqb_eq in E as ->. cbn [has_char]. rewrite Hn. reflexivity.
  - discriminate.
  - discriminate.
  - apply orb_prop in Hn as [Hn|Hn].
    + exact (IH1 Hn _ _ _ _ H).
    + apply matches_rest in H as (rest & caps' & He & H2).
      exact (has_char_ends _ _ _ He (IH2 Hn _ _ _ _ H2)).
  - apply andb_prop in Hn as [Hn1 Hn2].
    destruct (matches r1 s caps k) as [x|] eqn:E.
    + exact (IH1 Hn1 _ _ _ _ E).
    + exact (IH2 Hn2 _ _ _ _ H).
  - exact (IH1 Hn _ _ _ _ H).
Qed.

Lemma pattern_needs_backslash : needs backslash pattern = true.
Proof. reflexivity. Qed.

Lemma has_char_cons_first (c a : ascii) (pieces : list string) :
  Ascii.eqb a c = false ->
  Forall (fun l => has_char c l = false) pieces ->
  Forall (fun l => has_char c l = false) (cons_first a pieces).
Proof.
  intros Ha H. destruct H as [|p ps Hp Hps]; cbn [cons_first].
  - constructor; [|constructor]. cbn [has_char]. rewrite Ha. reflexivity.
  - constructor; [|exact Hps]. cbn [has_char]. rewrite Ha, Hp. reflexivity.
Qed.

(** The lines of a text hold only characters of the text. *)
Lemma splitlines_has_char (c : ascii) (n : nat) :
  forall s, String.length s <= n -> has_char c s = false ->
            Forall (fun l => has_char c l = false) (splitlines s).
Proof.
  induction n as [|n IH]; intros s Hlen Hs.
  - destruct s; [constructor|cbn [String.length] in Hlen; lia].
  - destruct s as [|a r]; [constructor|].
    cbn [String.length] in Hlen. cbn [has_char] in Hs.
    apply orb_false_elim in Hs as [Ha Hr].
    assert (Forall (fun l => has_char c l = false) (splitlines r)) as Hrest
      by (apply IH; [lia|exact Hr]).
    cbn [splitlines]. destruct (islinebreak a).
    + constructor; [reflexivity|].
      destruct (Ascii.eqb a CR); [|exact Hrest].
      destruct r as [|c' r']; [exact Hrest|].
      destruct (Ascii.eqb c' LF); [|exact Hrest].
      cbn [String.length] in Hlen. cbn [has_char] in Hr.
      apply orb_false_elim in Hr as [_ Hr']. apply IH; [lia|exact Hr'].
    + apply has_char_cons_first; assumption.
Qed.

Lemma foldl_add_match_none (lines : list string) (names : gset string) :
  Forall (fun l => re_match pattern l = None) lines ->
  foldl add_match names lines = names.
Proof.
  intros H. revert names. induction H as [|l ls Hl _ IH]; intros names.
  - reflexivity.
  - cbn [foldl]. unfold add_match at 2. rewrite Hl. apply IH.
Qed.

(** The names that the pattern finds in a text with a backslash after the
    keyword. *)
Lemma extract_function_names_backslash :
  extract_function_names "@@ -1,2 +1,2 @@ def\foo" = {[ "foo" ]}
  /\ extract_function_names "@@ -1,2 +1,2 @@ function\sssbar(x)" = {[ "bar" ]}.
Proof. split; vm_compute; reflexivity. Qed.

(** *** C7 *)

(** C7 fails on the program.  The pattern asks for a backslash between the
    keyword and the name, so a diff that holds no backslash gives the empty
    set of names, whatever its headers: the header
    [@@ -1,2 +1,2 @@ def foo] of the claim gives no name. *)
Theorem C7_no_name_without_backslash (diff : string) :
  has_char backslash diff = false -> extract_function_names diff = ∅.
Proof.
  intros H. unfold extract_function_names. apply foldl_add_match_none.
  pose proof (splitlines_has_char backslash (String.length diff) diff
                (le_n _) H) as Hlines.
  eapply Forall_impl; [exact Hlines|]. intros line Hline. cbv beta in Hline.
  unfold re_match.
  destruct (matches pattern line ∅ (fun _ caps => Some caps)) as [m|] eqn:E;
    [|reflexivity].
  apply (matches_needs backslash pattern pattern_needs_backslash) in E.
  congruence.
Qed.

Lemma C7_no_name_without_backslash_witness :
  extract_function_names "@@ -1,2 +1,2 @@ def foo" = ∅.
Proof. apply (C7_no_name_without_backslash "@@ -1,2 +1,2 @@ def foo"). reflexivity. Defined.

(** * Further properties of the program *)

(** ** Which files are written to their end *)

Lemma row_step_fails (st : Z * Z) (line : string) (e : exn) :
  failure line = Some e -> row_step_one st line = ([], Raise e).
Proof.
  destruct st as [old_line_num new_line_num]. unfold failure, row_step_one.
  destruct (startswith "@@" line).
  - destruct (hunk_header line) as [[a b]|e']; [discriminate|].
    intros [= ->]. reflexivity.
  - destruct (startswith "+" line); [discriminate|].
    destruct (startswith "-" line); [discriminate|].
    intros [= <-]. reflexivity.
Qed.

Lemma row_step_renders (st : Z * Z) (line : string) :
  failure line = None ->
  exists row st', row_step_one st line = ([row], Ok st').
Proof.
  destruct st as [old_line_num new_line_num]. unfold failure, row_step_one.
  destruct (startswith "@@" line).
  - destruct (hunk_header line) as [[a b]|e']; [|discriminate]. eauto.
  - destruct (startswith "+" line); [eauto|].
    destruct (startswith "-" line); [eauto|discriminate].
Qed.

Lemma renders_failure (line : string) : renders line = true <-> failure line = None.
Proof. unfold renders. destruct (failure line); split; congruence. Qed.

(** Lines that are all rendered give one row each. *)
Lemma for_fold_renders (lines : list string) :
  forallb renders lines = true ->
  forall st, exists rows st',
    for_fold lines st row_step_one = (rows, Ok st') /\ length rows = length lines.
Proof.
  induction lines as [|line lines IH]; intros H st.
  - exists [], st. split; reflexivity.
  - cbn [forallb] in H. apply andb_prop in H as [Hl Hls].
    apply renders_failure in Hl.
    destruct (row_step_renders st line Hl) as (row & st1 & Hrow).
    destruct (IH Hls st1) as (rows & st' & Hrows & Hlen).
    exists (row :: rows), st'. split.
    + cbn [for_fold]. rewrite (bind_ok _ _ _ _ Hrow), Hrows. reflexivity.
    + cbn [length]. rewrite Hlen. reflexivity.
Qed.

(** The first line that is not rendered ends the loop. *)
Lemma forallb_renders_false (lines : list string) :
  forallb renders lines = false ->
  exists pre line post e,
    lines = pre ++ line :: post /\ forallb renders pre = true
    /\ failure line = Some e.
Proof.
  induction lines as [|line lines IH]; [discriminate|].
  cbn [forallb]. destruct (renders line) eqn:Hl; cbn [andb].
  - intros H. destruct (IH H) as (pre & l & post & e & -> & Hpre & Hf).
    exists (line :: pre), l, post, e. cbn [forallb]. rewrite Hl. auto.
  - intros _. unfold renders in Hl. destruct (failure line) as [e|] eqn:Hf;
      [|discriminate].
    exists [], line, lines, e. auto.
Qed.

Lemma for_fold_stops (pre post : list string) (line : string) (e : exn) (st : Z * Z) :
  forallb renders pre = true -> failure line = Some e ->
  exists rows,
    for_fold (pre ++ line :: post) st row_step_one = (rows, Raise e)
    /\ length rows = length pre.
Proof.
  intros Hpre Hf. destruct (for_fold_renders pre Hpre st) as (rows & st' & Hrows & Hlen).
  exists rows. split; [|exact Hlen].
  rewrite (for_fold_raise row_step_one pre post line st st' rows [] e Hrows
             (row_step_fails st' line e Hf)).
  rewrite app_nil_r. reflexivity.
Qed.

(** Rendered lines are the change lines and the headers. *)
Lemma renders_count (lines : list string) :
  forallb renders lines = true ->
  length lines = difference_count lines + length (header_lines lines).
Proof.
  unfold difference_count, header_lines.
  induction lines as [|line lines IH]; [reflexivity|].
  cbn [forallb]. intros [Hl Hls]%andb_prop. specialize (IH Hls).
  cbn [List.filter length]. unfold renders, failure in Hl.
  destruct (startswith "@@" line) eqn:Hh.
  - destruct (header_is_no_change line Hh) as [-> ->]. cbn [orb length]. lia.
  - destruct (startswith "+" line), (startswith "-" line);
      cbn [orb length] in *; try discriminate; lia.
Qed.

Lemma modified_completes (diff : string) :
  forallb renders (lines_of diff) = true ->
  exists rows,
    modified_one diff = (table_head diff ++ rows ++ ["</table>"], Ok tt)
    /\ length rows = length (lines_of diff).
Proof.
  intros H. destruct (for_fold_renders _ H (0%Z, 0%Z)) as (rows & st & Hrows & Hlen).
  exists rows. rewrite modified_one_rows, Hrows. auto.
Qed.

Lemma modified_stops (diff : string) :
  forallb renders (lines_of diff) = false ->
  exists out e, modified_one diff = (out, Raise e).
Proof.
  intros H. destruct (forallb_renders_false _ H) as (pre & line & post & e & Hl & Hpre & Hf).
  destruct (for_fold_stops pre post line e (0%Z, 0%Z) Hpre Hf) as (rows & Hrows & _).
  exists (table_head diff ++ rows), e. rewrite modified_one_rows, Hl, Hrows. reflexivity.
Qed.

(** X1.  A modified file all of whose lines are headers that parse or lines
    that start with [+] or [-] is written to the end of its table without an
    error, in both branches, and the table has one row for each changed line
    and one separator for each header: as many rows as the difference count
    plus the number of headers. *)
Theorem modified_file_completes (diff : string) :
  forallb renders (lines_of diff) = true ->
  exists rows,
    modified_one diff = (table_head diff ++ rows ++ ["</table>"], Ok tt)
    /\ modified_two diff = (table_head diff ++ rows ++ ["</table>"], Ok tt)
    /\ length rows
       = difference_count (lines_of diff) + length (header_lines (lines_of diff)).
Proof.
  intros H. destruct (modified_completes diff H) as (rows & Hm & Hlen).
  exists rows. rewrite modified_two_one, Hlen. auto using renders_count.
Qed.

Lemma modified_file_completes_witness :
  exists rows,
    modified_one scenario_changes
      = (table_head scenario_changes ++ rows ++ ["</table>"], Ok tt)
    /\ modified_two scenario_changes
      = (table_head scenario_changes ++ rows ++ ["</table>"], Ok tt)
    /\ length rows
       = difference_count (lines_of scenario_changes)
         + length (header_lines (lines_of scenario_changes)).
Proof. apply (modified_file_completes scenario_changes). reflexivity. Defined.

(** X2.  A line that starts with none of [@@], [+] and [-] (a context line,
    or the line that git writes for a missing final line feed) ends its file
    with an AttributeError, in both branches: when the lines before it are
    rendered, their rows are written, and neither a row for the line, nor a
    later row, nor the end of the table. *)
Theorem context_line_stops_the_file (diff : string) (pre post : list string)
    (line : string) :
  lines_of diff = pre ++ line :: post ->
  forallb renders pre = true ->
  startswith "@@" line = false -> startswith "+" line = false ->
  startswith "-" line = false ->
  exists rows,
    length rows = length pre
    /\ modified_one diff = (table_head diff ++ rows, Raise AttributeError)
    /\ modified_two diff = (table_head diff ++ rows, Raise AttributeError).
Proof.
  intros Hl Hpre Hh Hp Hm.
  assert (failure line = Some AttributeError) as Hf
    by (unfold failure; rewrite Hh, Hp, Hm; reflexivity).
  destruct (for_fold_stops pre post line _ (0%Z, 0%Z) Hpre Hf) as (rows & Hrows & Hlen).
  exists rows. rewrite modified_two_one, modified_one_rows, Hl, Hrows. auto.
Qed.

Lemma context_line_stops_the_file_witness :
  exists rows,
    length rows = length ["@@ -1 +1 @@"; "-a"; "+b"]
    /\ modified_one no_newline_diff
       = (table_head no_newline_diff ++ rows, Raise AttributeError)
    /\ modified_two no_newline_diff
       = (table_head no_newline_diff ++ rows, Raise AttributeError).
Proof.
  apply (context_line_stops_the_file no_newline_diff
           ["@@ -1 +1 @@"; "-a"; "+b"] [] "\ No newline at end of file");
    reflexivity.
Defined.

(** ** The whole run *)

Lemma file_body_completes (oneArgument : bool) (d : diff_data) :
  completes d = true -> exists out, file_body oneArgument d = (out, Ok tt).
Proof.
  unfold completes, file_body. intros H.
  pose proof (added_block_shown d) as Ha. pose proof (deleted_block_shown d) as Hd.
  unfold file_title in Ha, Hd. unfold shown_added in Ha. unfold shown_deleted in Hd.
  destruct oneArgument;
    destruct (String.eqb (file_status d) "A"), (String.eqb (file_status d) "D");
    cbn [orb] in H; eauto.
  - destruct (modified_completes _ H) as (rows & Hm & _).
    rewrite (bind_ok (write _) _ _ tt eq_refl), Hm. eauto.
  - destruct (modified_completes _ H) as (rows & Hm & _).
    rewrite modified_two_one, (bind_ok (write _) _ _ tt eq_refl), Hm. eauto.
Qed.

Lemma file_body_stops (oneArgument : bool) (d : diff_data) :
  completes d = false -> exists out e, file_body oneArgument d = (out, Raise e).
Proof.
  unfold completes, file_body. intros H.
  apply orb_false_elim in H as [[HA HD]%orb_false_elim H].
  rewrite HA, HD, modified_two_one.
  destruct (modified_stops _ H) as (out & e & Hm).
  rewrite (bind_ok (write _) _ _ tt eq_refl), Hm.
  destruct oneArgument; eauto.
Qed.

Lemma for_each_completes {A : Type} (body : A -> M unit) (ok : A -> bool)
    (l : list A) :
  (forall x, ok x = true -> exists out, body x = (out, Ok tt)) ->
  forallb ok l = true -> exists out, for_each l body = (out, Ok tt).
Proof.
  intros Hok. induction l as [|x l IH]; cbn [forallb for_each]; intros H.
  - exists []. reflexivity.
  - apply andb_prop in H as [Hx Hl]. destruct (Hok x Hx) as [o Ho].
    destruct (IH Hl) as [os Hos]. exists (o ++ os).
    rewrite (bind_ok _ _ _ _ Ho), Hos. reflexivity.
Qed.

Lemma for_each_stops {A : Type} (body : A -> M unit) (ok : A -> bool)
    (l : list A) :
  (forall x, ok x = true -> exists out, body x = (out, Ok tt)) ->
  (forall x, ok x = false -> exists out e, body x = (out, Raise e)) ->
  forallb ok l = false -> exists out e, for_each l body = (out, Raise e).
Proof.
  intros Hok Hno. induction l as [|x l IH]; cbn [forallb for_each]; [discriminate|].
  destruct (ok x) eqn:Hx; cbn [andb]; intros H.
  - destruct (Hok x Hx) as [o Ho]. destruct (IH H) as (os & e & Hos).
    exists (o ++ os), e. rewrite (bind_ok _ _ _ _ Ho), Hos. reflexivity.
  - destruct (Hno x Hx) as (o & e & Ho). exists o, e. rewrite Ho. reflexivity.
Qed.

(** X3.  A run ends without an error exactly when every file completes: each
    file is added, deleted, or modified with every line of its filtered diff
    rendered.  The page always starts with its head, and a run without an
    error ends it with the closing tags. *)
Theorem run_completes_iff (oneArgument : bool) (diffs : list diff_data) :
  (snd (write_diff_to_html oneArgument diffs) = None
   <-> forallb completes diffs = true)
  /\ (exists rest, fst (write_diff_to_html oneArgument diffs) = page_head ++ rest)
  /\ (snd (write_diff_to_html oneArgument diffs) = None ->
      last (fst (write_diff_to_html oneArgument diffs)) = Some "</body></html>").
Proof.
  unfold write_diff_to_html.
  rewrite (bind_ok (for_each page_head write) _ page_head tt eq_refl).
  destruct (forallb completes diffs) eqn:H.
  - destruct (for_each_completes _ completes diffs
                (file_body_completes oneArgument) H) as [out Hout].
    rewrite (bind_ok _ _ _ _ Hout). cbn [fst snd write].
    split; [tauto|]. split; [eauto|]. intros _.
    rewrite app_assoc. apply last_snoc.
  - destruct (for_each_stops _ completes diffs
                (file_body_completes oneArgument)
                (file_body_stops oneArgument) H) as (out & e & Hout).
    rewrite Hout. cbn [bind fst snd]. split; [|split; [eauto|]]; [split|]; discriminate.
Qed.

(** ** The two counters *)

Lemma startswith_cons (a b : ascii) (p s : string) :
  startswith (String a p) (String b s) = Ascii.eqb a b && startswith p s.
Proof. reflexivity. Qed.

Lemma startswith_one (c : ascii) (line : string) :
  startswith (String c EmptyString) line = true ->
  line = String c EmptyString +:+ tail line.
Proof.
  destruct line as [|b s]; [discriminate|]. rewrite startswith_cons.
  intros [H _]%andb_prop. apply Ascii.eqb_eq in H as <-. reflexivity.
Qed.

Lemma row_step_plus_line (old_line_num new_line_num : Z) (line : string) :
  startswith "+" line = true ->
  row_step_one (old_line_num, new_line_num) line
  = ([row_old_only old_line_num (tail line)], Ok ((old_line_num + 1)%Z, new_line_num)).
Proof. intros H. rewrite (startswith_one _ _ H) at 1. apply row_step_plus. Qed.

Lemma row_step_minus_line (old_line_num new_line_num : Z) (line : string) :
  startswith "-" line = true ->
  row_step_one (old_line_num, new_line_num) line
  = ([row_new_only new_line_num (tail line)], Ok (old_line_num, (new_line_num + 1)%Z)).
Proof. intros H. rewrite (startswith_one _ _ H) at 1. apply row_step_minus. Qed.

Lemma plus_is_not_minus (line : string) :
  startswith "+" line = true -> startswith "-" line = false.
Proof. intros H. rewrite (startswith_one _ _ H). reflexivity. Qed.

(** X4.  Over lines that all start with [+] or [-], in any order and from
    any counters, both loops write one row for each line and leave the old
    counter advanced by the number of [+] lines and the new counter by the
    number of [-] lines. *)
Theorem change_lines_advance_counters (lines : list string)
    (old_line_num new_line_num : Z) :
  forallb (fun line => startswith "+" line || startswith "-" line) lines = true ->
  exists rows,
    length rows = length lines
    /\ for_fold lines (old_line_num, new_line_num) row_step_one
       = (rows, Ok ((old_line_num + Z.of_nat (count_kind Added lines))%Z,
                    (new_line_num + Z.of_nat (count_kind Removed lines))%Z))
    /\ for_fold lines (old_line_num, new_line_num) row_step_two
       = (rows, Ok ((old_line_num + Z.of_nat (count_kind Added lines))%Z,
                    (new_line_num + Z.of_nat (count_kind Removed lines))%Z)).
Proof.
  rewrite row_step_two_one. unfold count_kind.
  revert old_line_num new_line_num.
  induction lines as [|line lines IH]; intros o n H.
  - exists []. rewrite !Z.add_0_r. auto.
  - cbn [forallb] in H. apply andb_prop in H as [Hl Hls].
    assert (kind_of line = if startswith "+" line then Added
                           else if startswith "-" line then Removed else Context)
      as Hk by reflexivity.
    cbn [for_fold List.filter]. rewrite Hk.
    destruct (startswith "+" line) eqn:Hp.
    + destruct (IH (o + 1)%Z n Hls) as (rows & Hlen & Hrows & _).
      exists (row_old_only o (tail line) :: rows).
      rewrite (bind_ok _ _ _ _ (row_step_plus_line o n line Hp)), Hrows.
      cbn [length fst snd app]. rewrite Hlen.
      replace (o + 1 + Z.of_nat (length (List.filter _ lines)))%Z
        with (o + Z.of_nat (S (length (List.filter
                (fun line0 => match kind_of line0 with Added => true | _ => false end)
                lines))))%Z by lia.
      auto.
    + cbn [orb] in Hl. rewrite Hl.
      destruct (IH o (n + 1)%Z Hls) as (rows & Hlen & Hrows & _).
      exists (row_new_only n (tail line) :: rows).
      rewrite (bind_ok _ _ _ _ (row_step_minus_line o n line Hl)), Hrows.
      cbn [length fst snd app]. rewrite Hlen.
      replace (n + 1 + Z.of_nat (length (List.filter _ lines)))%Z
        with (n + Z.of_nat (S (length (List.filter
                (fun line0 => match kind_of line0 with Removed => true | _ => false end)
                lines))))%Z by lia.
      auto.
Qed.

Lemma change_lines_advance_counters_witness :
  exists rows,
    length rows = length ["-a"; "+b"; "+c"; "-d"; "+e"]
    /\ for_fold ["-a"; "+b"; "+c"; "-d"; "+e"] (10%Z, 20%Z) row_step_one
       = (rows, Ok ((10 + Z.of_nat (count_kind Added ["-a"; "+b"; "+c"; "-d"; "+e"]))%Z,
                    (20 + Z.of_nat (count_kind Removed ["-a"; "+b"; "+c"; "-d"; "+e"]))%Z))
    /\ for_fold ["-a"; "+b"; "+c"; "-d"; "+e"] (10%Z, 20%Z) row_step_two
       = (rows, Ok ((10 + Z.of_nat (count_kind Added ["-a"; "+b"; "+c"; "-d"; "+e"]))%Z,
                    (20 + Z.of_nat (count_kind Removed ["-a"; "+b"; "+c"; "-d"; "+e"]))%Z)).
Proof.
  apply (change_lines_advance_counters ["-a"; "+b"; "+c"; "-d"; "+e"] 10 20).
  reflexivity.
Defined.

Lemma minus_run (texts : list string) (old_line_num new_line_num : Z) :
  for_fold (map (String.append "-") texts) (old_line_num, new_line_num) row_step_one
  = (imap (fun k text => row_new_only (new_line_num + Z.of_nat k)%Z text) texts,
     Ok (old_line_num, (new_line_num + Z.of_nat (length texts))%Z)).
Proof.
  revert new_line_num. induction texts as [|text texts IH]; intros n.
  - cbn. rewrite Z.add_0_r. reflexivity.
  - cbn [map for_fold]. rewrite (bind_ok _ _ _ _ (row_step_minus old_line_num n text)).
    rewrite IH. cbn [fst snd app imap length]. rewrite Z.add_0_r. f_equal.
    + f_equal. apply imap_ext. intros k t _. cbn. f_equal. lia.
    + do 2 f_equal. lia.
Qed.

Lemma plus_run (texts : list string) (old_line_num new_line_num : Z) :
  for_fold (map (String.append "+") texts) (old_line_num, new_line_num) row_step_one
  = (imap (fun k text => row_old_only (old_line_num + Z.of_nat k)%Z text) texts,
     Ok ((old_line_num + Z.of_nat (length texts))%Z, new_line_num)).
Proof.
  revert old_line_num. induction texts as [|text texts IH]; intros o.
  - cbn. rewrite Z.add_0_r. reflexivity.
  - cbn [map for_fold]. rewrite (bind_ok _ _ _ _ (row_step_plus o new_line_num text)).
    rewrite IH. cbn [fst snd app imap length]. rewrite Z.add_0_r. f_equal.
    + f_equal. apply imap_ext. intros k t _. cbn. f_equal. lia.
    + do 2 f_equal. lia.
Qed.

(** X5.  A run of [-] lines followed by a run of [+] lines, of any two
    lengths, is written by both loops as two blocks and never as pairs: first
    one New Version row for each [-] line, numbered upwards from the new
    counter, then one Old Version row for each [+] line, numbered upwards
    from the old counter; each counter ends advanced by the length of its
    run. *)
Theorem runs_are_written_as_blocks (minus plus : list string)
    (old_line_num new_line_num : Z) :
  let lines := map (String.append "-") minus ++ map (String.append "+") plus in
  let rows :=
    imap (fun k text => row_new_only (new_line_num + Z.of_nat k)%Z text) minus
    ++ imap (fun k text => row_old_only (old_line_num + Z.of_nat k)%Z text) plus in
  let counters := ((old_line_num + Z.of_nat (length plus))%Z,
                   (new_line_num + Z.of_nat (length minus))%Z) in
  for_fold lines (old_line_num, new_line_num) row_step_one = (rows, Ok counters)
  /\ for_fold lines (old_line_num, new_line_num) row_step_two = (rows, Ok counters).
Proof.
  cbv zeta. rewrite row_step_two_one, for_fold_app.
  rewrite (bind_ok _ _ _ _ (minus_run minus old_line_num new_line_num)).
  rewrite plus_run. auto.
Qed.

(** ** Lines that the filter takes for the preamble *)

Lemma splitlines_line (line rest : string) :
  has_break line = false ->
  splitlines (line +:+ newline +:+ rest) = line :: splitlines rest.
Proof.
  induction line as [|c line IH]; intros H; [reflexivity|].
  cbn [has_break] in H. apply orb_false_elim in H as [Hc Hl].
  rewrite append_String. cbn [splitlines]. rewrite Hc, (IH Hl). reflexivity.
Qed.

(** Lines without a line boundary, each closed by a line feed, are read
    back as they were. *)
Lemma splitlines_unlines (lines : list string) :
  forallb (fun line => negb (has_break line)) lines = true ->
  splitlines (unlines lines) = lines.
Proof.
  induction lines as [|line lines IH]; [reflexivity|].
  cbn [forallb]. intros [Hl Hls]%andb_prop. apply negb_true_iff in Hl.
  change (unlines (line :: lines)) with (line +:+ newline +:+ unlines lines).
  rewrite (splitlines_line _ _ Hl), (IH Hls). reflexivity.
Qed.

Lemma matches_lit_header (line : string) (caps : gmap nat string) k :
  startswith "@@" line = false -> matches (lit "@@") line caps k = None.
Proof.
  destruct line as [|a [|b line]]; [reflexivity| |]; cbn [lit matches].
  - destruct (Ascii.eqb a "@"); reflexivity.
  - rewrite !startswith_cons, (Ascii.eqb_sym "@" a), (Ascii.eqb_sym "@" b).
    destruct (Ascii.eqb a "@"); [|reflexivity].
    destruct (Ascii.eqb b "@"); [discriminate|reflexivity].
Qed.

(** The pattern matches header lines only. *)
Lemma add_match_not_header (names : gset string) (line : string) :
  startswith "@@" line = false -> add_match names line = names.
Proof.
  intros H. unfold add_match, re_match, pattern. cbn [matches].
  rewrite (matches_lit_header line _ _ H). reflexivity.
Qed.

Lemma preamble_not_header (line : string) :
  preamble line = true -> startswith "@@" line = false.
Proof.
  destruct line as [|c line]; [reflexivity|].
  unfold preamble. rewrite !startswith_cons.
  destruct (Ascii.eqb "@" c) eqn:E; [|reflexivity].
  apply Ascii.eqb_eq in E as <-. discriminate.
Qed.

Lemma modified_one_ext (d1 d2 : string) :
  lines_of d1 = lines_of d2 ->
  extract_function_names d1 = extract_function_names d2 ->
  modified_one d1 = modified_one d2.
Proof.
  intros Hl Hn. rewrite !modified_one_rows. unfold table_head.
  rewrite Hl, Hn. reflexivity.
Qed.

(** X6.  A line that the filter takes for the preamble is lost wherever it
    stands, also inside a hunk: a removed line whose text starts with [-- ]
    reads [--- ...] in the diff and an added line whose text starts with
    [++ ] reads [+++ ...].  Such a line is neither counted, nor searched for
    a function name, nor written as a row: in both branches what is written
    for the diff is what is written for the diff without that line. *)
Theorem preamble_like_line_is_dropped (pre post : list string) (line : string) :
  preamble line = true ->
  forallb (fun line => negb (has_break line)) (pre ++ line :: post) = true ->
  modified_one (unlines (pre ++ line :: post)) = modified_one (unlines (pre ++ post))
  /\ modified_two (unlines (pre ++ line :: post)) = modified_two (unlines (pre ++ post)).
Proof.
  intros Hp Hb. rewrite modified_two_one.
  assert (forallb (fun line => negb (has_break line)) (pre ++ post) = true) as Hb'.
  { rewrite forallb_app in Hb |- *. cbn [forallb] in Hb.
    apply andb_prop in Hb as [H1 [_ H2]%andb_prop]. rewrite H1, H2. reflexivity. }
  assert (modified_one (unlines (pre ++ line :: post))
          = modified_one (unlines (pre ++ post))) as H; [|auto].
  apply modified_one_ext.
  - unfold lines_of. rewrite (splitlines_unlines _ Hb), (splitlines_unlines _ Hb').
    rewrite !List.filter_app. cbn [List.filter]. rewrite Hp. reflexivity.
  - unfold extract_function_names.
    rewrite (splitlines_unlines _ Hb), (splitlines_unlines _ Hb').
    rewrite !foldl_app. cbn [foldl].
    rewrite (add_match_not_header _ _ (preamble_not_header _ Hp)). reflexivity.
Qed.

Lemma preamble_like_line_is_dropped_witness :
  modified_one (unlines (["@@ -3 +2,0 @@"] ++ "--- a comment" :: ["-x = 1"]))
    = modified_one (unlines (["@@ -3 +2,0 @@"] ++ ["-x = 1"]))
  /\ modified_two (unlines (["@@ -3 +2,0 @@"] ++ "--- a comment" :: ["-x = 1"]))
    = modified_two (unlines (["@@ -3 +2,0 @@"] ++ ["-x = 1"])).
Proof.
  apply (preamble_like_line_is_dropped ["@@ -3 +2,0 @@"] ["-x = 1"] "--- a comment");
    reflexivity.
Defined.

(** ** Text on the page *)

Lemma occurrences_app (c : ascii) (a b : string) :
  occurrences c (a +:+ b) = occurrences c a + occurrences c b.
Proof.
  induction a as [|x a IH]; [reflexivity|].
  rewrite append_String. cbn [occurrences]. rewrite IH. lia.
Qed.

(** After a replacement by a text without the replaced character, the
    character is gone. *)
Lemma occurrences_replace_old (old : ascii) (new s : string) :
  occurrences old new = 0 -> occurrences old (replace old new s) = 0.
Proof.
  intros Hn. induction s as [|c s IH]; [reflexivity|]. cbn [replace].
  destruct (Ascii.eqb c old) eqn:E.
  - rewrite occurrences_app, Hn, IH. reflexivity.
  - cbn [occurrences]. rewrite E, IH. reflexivity.
Qed.

(** A replacement leaves the other characters as many as they were, when
    the new text holds none of them. *)
Lemma occurrences_replace_other (c old : ascii) (new s : string) :
  Ascii.eqb old c = false -> occurrences c new = 0 ->
  occurrences c (replace old new s) = occurrences c s.
Proof.
  intros Hc Hn. induction s as [|x s IH]; [reflexivity|]. cbn [replace occurrences].
  destruct (Ascii.eqb x old) eqn:E.
  - apply Ascii.eqb_eq in E as ->. rewrite occurrences_app, Hn, IH, Hc. reflexivity.
  - cbn [occurrences]. rewrite IH. reflexivity.
Qed.

(** An escaped text holds no markup character. *)
Lemma escape_str_markup (c : ascii) (s : string) :
  markup c = true -> occurrences c (escape_str s) = 0.
Proof.
  unfold markup, escape_str. intros H.
  repeat (apply orb_prop in H as [H|H]); apply Ascii.eqb_eq in H as ->.
  - rewrite !(occurrences_replace_other "<") by reflexivity.
    apply occurrences_replace_old. reflexivity.
  - rewrite !(occurrences_replace_other ">") by reflexivity.
    apply occurrences_replace_old. reflexivity.
  - rewrite !(occurrences_replace_other (ascii_of_nat 34)) by reflexivity.
    apply occurrences_replace_old. reflexivity.
  - apply occurrences_replace_old. reflexivity.
Qed.

(** X7.  Text from a diff, a file or a file name brings no markup to the
    page: in a row of a [+] or [-] line, in a row of an added or deleted
    file and in the title of a file, each of the characters [<], [>], double
    quote and single quote occurs exactly as often as in the same row or
    title written for the empty text. *)
Theorem rows_hold_no_markup_from_text (c : ascii) (n : Z) (text : string) :
  markup c = true ->
  occurrences c (row_old_only n text) = occurrences c (row_old_only n EmptyString)
  /\ occurrences c (row_new_only n text) = occurrences c (row_new_only n EmptyString)
  /\ occurrences c (numbered_added n text)
     = occurrences c (numbered_added n EmptyString)
  /\ occurrences c (numbered_removed n text)
     = occurrences c (numbered_removed n EmptyString)
  /\ occurrences c (file_title text) = occurrences c (file_title EmptyString).
Proof.
  intros H.
  unfold row_old_only, row_new_only, numbered_added, numbered_removed, file_title.
  rewrite !occurrences_app, !(escape_str_markup c _ H). auto.
Qed.

Lemma rows_hold_no_markup_from_text_witness :
  occurrences "<" (row_old_only 7 "<script>") = occurrences "<" (row_old_only 7 EmptyString)
  /\ occurrences "<" (row_new_only 7 "<script>")
     = occurrences "<" (row_new_only 7 EmptyString)
  /\ occurrences "<" (numbered_added 7 "<script>")
     = occurrences "<" (numbered_added 7 EmptyString)
  /\ occurrences "<" (numbered_removed 7 "<script>")
     = occurrences "<" (numbered_removed 7 EmptyString)
  /\ occurrences "<" (file_title "<script>") = occurrences "<" (file_title EmptyString).
Proof. apply (rows_hold_no_markup_from_text "<" 7 "<script>"). reflexivity. Defined.

(** ** Paths and directories *)






Section FileSystemProperties.
Context {fs : Type}.
Variable path_exists : fs -> string -> bool.
Variable makedirs : fs -> string -> fs.

(** From a candidate on, the loop returns the first free candidate. *)
Lemma free_dir_least (disk : fs) (base_dir : string) (k : nat) :
  path_exists disk (candidate base_dir k) = false ->
  forall d i fuel,
    k = i + d -> d <= fuel ->
    (forall j, i <= j < k -> path_exists disk (candidate base_dir j) = true) ->
    free_dir fs path_exists fuel disk base_dir (Z.of_nat (S i)) (candidate base_dir i)
    = Some (candidate base_dir k).
Proof.
  intros Hk d. induction d as [|d IH]; intros i fuel Heq Hfuel Hbusy.
  - replace i with k by lia. destruct fuel; cbn [free_dir]; rewrite Hk; reflexivity.
  - destruct fuel as [|fuel]; [lia|]. cbn [free_dir].
    rewrite (Hbusy i) by lia.
    change (base_dir +:+ " (" +:+ str (Z.of_nat (S i)) +:+ ")")
      with (candidate base_dir (S i)).
    replace (Z.of_nat (S i) + 1)%Z with (Z.of_nat (S (S i))) by lia.
    apply IH; [lia|lia|]. intros j Hj. apply Hbusy. lia.
Qed.

(** What the loop returns does not exist. *)
Lemma free_dir_free (disk : fs) (base_dir : string) (fuel : nat) :
  forall counter new_dir d,
    free_dir fs path_exists fuel disk base_dir counter new_dir = Some d ->
    path_exists disk d = false.
Proof.
  induction fuel as [|fuel IH]; intros counter new_dir d; cbn [free_dir];
    destruct (path_exists disk new_dir) eqn:E; try discriminate.
  - intros [= <-]. exact E.
  - apply IH.
  - intros [= <-]. exact E.
Qed.

(** While every candidate exists the loop goes on. *)
Lemma free_dir_busy (disk : fs) (base_dir : string) (fuel : nat) :
  (forall j, path_exists disk (candidate base_dir j) = true) ->
  forall i, free_dir fs path_exists fuel disk base_dir (Z.of_nat (S i))
              (candidate base_dir i) = None.
Proof.
  intros H. induction fuel as [|fuel IH]; intros i; cbn [free_dir]; rewrite H;
    [reflexivity|].
  change (base_dir +:+ " (" +:+ str (Z.of_nat (S i)) +:+ ")")
    with (candidate base_dir (S i)).
  replace (Z.of_nat (S i) + 1)%Z with (Z.of_nat (S (S i))) by lia.
  apply IH.
Qed.

(** X9.  [create_unique_output_dir] returns the first name that does not
    exist among the base directory, the base with [ (1)], with [ (2)], and
    so on, and makes that directory: when the names before the [k]-th all
    exist and the [k]-th does not, the loop ends within [k] turns with the
    [k]-th name. *)
Theorem create_unique_output_dir_first_free (disk : fs) (base_dir : string)
    (k fuel : nat) :
  (forall j, j < k -> path_exists disk (candidate base_dir j) = true) ->
  path_exists disk (candidate base_dir k) = false ->
  k <= fuel ->
  create_unique_output_dir fs path_exists makedirs fuel disk base_dir
  = Some (makedirs disk (candidate base_dir k), candidate base_dir k).
Proof.
  intros Hbusy Hfree Hfuel. unfold create_unique_output_dir.
  assert (free_dir fs path_exists fuel disk base_dir 1 base_dir
          = Some (candidate base_dir k)) as H.
  { apply (free_dir_least disk base_dir k Hfree k 0 fuel); [lia|lia|].
    intros j Hj. apply Hbusy. lia. }
  rewrite H. reflexivity.
Qed.

(** Below a free candidate there is a first free candidate. *)
Lemma first_free_below (disk : fs) (base_dir : string) (n : nat) :
  (forall i, i < n -> path_exists disk (candidate base_dir i) = true)
  \/ exists k, k < n /\ path_exists disk (candidate base_dir k) = false
               /\ forall i, i < k -> path_exists disk (candidate base_dir i) = true.
Proof.
  induction n as [|n [IH|(k & Hk & Hfree & Hbusy)]].
  - left. intros i Hi. lia.
  - destruct (path_exists disk (candidate base_dir n)) eqn:E.
    + left. intros i Hi. destruct (decide (i = n)) as [->|Hne]; [exact E|].
      apply IH. lia.
    + right. exists n. split; [lia|]. split; [exact E|]. intros i Hi. apply IH, Hi.
  - right. exists k. split; [lia|]. auto.
Qed.

(** With a free candidate and that many turns, the loop returns. *)
Lemma free_dir_returns (disk : fs) (base_dir : string) (j fuel : nat) :
  path_exists disk (candidate base_dir j) = false -> j <= fuel ->
  exists d, free_dir fs path_exists fuel disk base_dir 1 base_dir = Some d
            /\ path_exists disk d = false.
Proof.
  intros Hj Hfuel.
  destruct (first_free_below disk base_dir (S j)) as [Hall|(k & Hk & Hfree & Hbusy)].
  - rewrite (Hall j) in Hj by lia. discriminate.
  - exists (candidate base_dir k). split; [|exact Hfree].
    apply (free_dir_least disk base_dir k Hfree k 0 fuel); [lia|lia|].
    intros i Hi. apply Hbusy. lia.
Qed.

(** X10.  Two calls in a row for the same base return two different
    directories, when [os.makedirs] makes the directory it is asked for.
    When one of the names that the loop tries does not exist, the first call
    returns, within that many turns, a directory that did not exist and
    exists after the call; when after it one of the names still does not
    exist, the second call returns too, with a directory that is not the
    first. *)
Theorem create_unique_output_dir_twice (disk : fs) (base_dir : string)
    (j1 fuel1 : nat) :
  (forall s d, path_exists (makedirs s d) d = true) ->
  path_exists disk (candidate base_dir j1) = false -> j1 <= fuel1 ->
  exists disk1 d1,
    create_unique_output_dir fs path_exists makedirs fuel1 disk base_dir
      = Some (disk1, d1)
    /\ path_exists disk d1 = false /\ path_exists disk1 d1 = true
    /\ forall j2 fuel2,
         path_exists disk1 (candidate base_dir j2) = false -> j2 <= fuel2 ->
         exists disk2 d2,
           create_unique_output_dir fs path_exists makedirs fuel2 disk1 base_dir
             = Some (disk2, d2)
           /\ d1 <> d2
           /\ path_exists disk1 d2 = false /\ path_exists disk2 d2 = true.
Proof.
  intros Hmk Hj1 Hfuel1.
  destruct (free_dir_returns disk base_dir j1 fuel1 Hj1 Hfuel1) as (d1 & E1 & Hd1).
  exists (makedirs disk d1), d1. unfold create_unique_output_dir. rewrite E1.
  split; [reflexivity|]. split; [exact Hd1|]. split; [apply Hmk|].
  intros j2 fuel2 Hj2 Hfuel2.
  destruct (free_dir_returns (makedirs disk d1) base_dir j2 fuel2 Hj2 Hfuel2)
    as (d2 & E2 & Hd2).
  exists (makedirs (makedirs disk d1) d2), d2. rewrite E2.
  split; [reflexivity|]. split; [|split; [exact Hd2|apply Hmk]].
  intros ->. rewrite (Hmk disk d2) in Hd2. discriminate.
Qed.
End FileSystemProperties.

(** When every candidate exists, no number of turns ends the loop. *)
Lemma create_unique_output_dir_never_ends {fs : Type}
    (path_exists : fs -> string -> bool) (makedirs : fs -> string -> fs)
    (disk : fs) (base_dir : string) (fuel : nat) :
  (forall j, path_exists disk (candidate base_dir j) = true) ->
  create_unique_output_dir fs path_exists makedirs fuel disk base_dir = None.
Proof.
  intros H. unfold create_unique_output_dir.
  assert (free_dir fs path_exists fuel disk base_dir 1 base_dir = None) as E
    by apply (free_dir_busy path_exists disk base_dir fuel H 0).
  rewrite E. reflexivity.
Qed.

Lemma create_unique_output_dir_first_free_witness :
  create_unique_output_dir (gset string) paths_exists paths_makedirs 2
    {[ "Differences"; "Differences (1)" ]} "Differences"
  = Some (paths_makedirs {[ "Differences"; "Differences (1)" ]}
            (candidate "Differences" 2),
          candidate "Differences" 2).
Proof.
  apply (create_unique_output_dir_first_free paths_exists paths_makedirs
           {[ "Differences"; "Differences (1)" ]} "Differences" 2 2).
  - intros [|[|j]] Hj; [reflexivity|reflexivity|lia].
  - reflexivity.
  - lia.
Defined.

Lemma create_unique_output_dir_twice_witness :
  exists disk1 d1,
    create_unique_output_dir (gset string) paths_exists paths_makedirs 0
      ∅ "Differences"
      = Some (disk1, d1)
    /\ paths_exists ∅ d1 = false /\ paths_exists disk1 d1 = true
    /\ forall j2 fuel2,
         paths_exists disk1 (candidate "Differences" j2) = false -> j2 <= fuel2 ->
         exists disk2 d2,
           create_unique_output_dir (gset string) paths_exists paths_makedirs fuel2
             disk1 "Differences"
             = Some (disk2, d2)
           /\ d1 <> d2
           /\ paths_exists disk1 d2 = false /\ paths_exists disk2 d2 = true.
Proof.
  apply (create_unique_output_dir_twice paths_exists paths_makedirs ∅ "Differences" 0 0).
  - intros s d. unfold paths_exists, paths_makedirs.
    apply bool_decide_eq_true. set_solver.
  - reflexivity.
  - lia.
Defined.

(** ** The names that are extracted *)

Lemma length_app (a b : string) :
  String.length (a +:+ b) = String.length a + String.length b.
Proof.
  induction a as [|c a IH]; [reflexivity|].
  rewrite append_String. cbn [String.length]. rewrite IH. reflexivity.
Qed.

Lemma substring_app (a b : string) :
  String.substring 0 (String.length a) (a +:+ b) = a.
Proof.
  induction a as [|c a IH]; [destruct b; reflexivity|].
  rewrite append_String. cbn [String.length String.substring]. rewrite IH.
  reflexivity.
Qed.

(** What was consumed before an end of the text is the start of the text. *)
Lemma consumed_app (a b : string) : consumed (a +:+ b) b = a.
Proof.
  unfold consumed. rewrite length_app.
  replace (String.length a + String.length b - String.length b)
    with (String.length a) by lia.
  apply substring_app.
Qed.

(** A star consumes characters of its class. *)
Lemma star_prefix {A : Type} (p : ascii -> bool) (s : string)
    (k : string -> option A) (m : A) :
  star p s k = Some m ->
  exists pre rest, s = pre +:+ rest /\ all_chars p pre = true /\ k rest = Some m.
Proof.
  induction s as [|c s IH]; cbn [star]; intros H.
  - exists EmptyString, EmptyString. auto.
  - destruct (p c) eqn:Hc.
    + destruct (star p s k) as [x|] eqn:E.
      * destruct (IH H) as (pre & rest & -> & Hpre & Hk).
        exists (String c pre), rest. cbn [all_chars]. rewrite Hc, Hpre. auto.
      * exists EmptyString, (String c s). auto.
    + exists EmptyString, (String c s). auto.
Qed.

Lemma matches_seq_rest (r1 r2 : regex) (s : string) (caps : gmap nat string) k m :
  matches (Seq r1 r2) s caps k = Some m ->
  exists rest caps', matches r2 rest caps' k = Some m.
Proof.
  cbn [matches]. intros H.
  apply matches_rest in H as (rest & caps' & _ & H). eauto.
Qed.

(** The second group of a match of the pattern is an identifier. *)
Lemma re_match_identifier (line : string) (m : gmap nat string) :
  re_match pattern line = Some m ->
  exists name, m !! 2 = Some name /\ identifier name = true.
Proof.
  unfold re_match, pattern. intros H.
  do 7 apply matches_seq_rest in H as (? & ? & H).
  cbn [matches] in H.
  destruct x11 as [|c s1]; [discriminate|].
  destruct (isalpha_ c) eqn:Hc; [|discriminate].
  apply star_prefix in H as (pre & rest & -> & Hpre & H).
  injection H as <-. exists (String c pre).
  change (String c (pre +:+ rest)) with (String c pre +:+ rest).
  rewrite consumed_app, lookup_insert_eq. cbn [identifier].
  rewrite Hc, Hpre. auto.
Qed.

Lemma add_match_identifiers (names : gset string) (line : string) :
  (forall name, name ∈ names -> identifier name = true) ->
  forall name, name ∈ add_match names line -> identifier name = true.
Proof.
  intros Hnames name. unfold add_match.
  destruct (re_match pattern line) as [m|] eqn:E; [|apply Hnames].
  destruct (re_match_identifier line m E) as (found & -> & Hid).
  intros [->%elem_of_singleton|H]%elem_of_union; auto.
Qed.

Lemma foldl_add_match_identifiers (lines : list string) :
  forall names : gset string,
    (forall name, name ∈ names -> identifier name = true) ->
    forall name, name ∈ foldl add_match names lines -> identifier name = true.
Proof.
  induction lines as [|line lines IH]; intros names Hnames; [exact Hnames|].
  cbn [foldl]. apply IH. apply add_match_identifiers. exact Hnames.
Qed.

(** Letters, digits and underscores are no markup. *)
Lemma alnum_is_no_markup (c : ascii) (s : string) :
  markup c = true -> all_chars isalnum_ s = true -> occurrences c s = 0.
Proof.
  intros Hc. induction s as [|x s IH]; [reflexivity|]. cbn [all_chars occurrences].
  intros [Hx Hs]%andb_prop. rewrite (IH Hs).
  destruct (Ascii.eqb x c) eqn:E; [|reflexivity].
  apply Ascii.eqb_eq in E as ->. unfold markup in Hc.
  repeat (apply orb_prop in Hc as [Hc|Hc]); apply Ascii.eqb_eq in Hc as ->;
    discriminate.
Qed.

(** X11.  Every name that [extract_function_names] returns is an
    identifier: it is not empty, starts with a letter or an underscore and
    goes on with letters, digits and underscores; so the names, which are
    written to the page as they are, hold no markup character. *)
Theorem extracted_names_are_identifiers (diff name : string) :
  name ∈ extract_function_names diff ->
  identifier name = true /\ forall c, markup c = true -> occurrences c name = 0.
Proof.
  intros H.
  assert (identifier name = true) as Hid.
  { apply (foldl_add_match_identifiers (splitlines diff) ∅); [set_solver|exact H]. }
  split; [exact Hid|]. intros c Hc. apply (alnum_is_no_markup c name Hc).
  destruct name as [|a name]; [discriminate|]. cbn [identifier] in Hid.
  apply andb_prop in Hid as [Ha Hname]. cbn [all_chars].
  rewrite Hname. unfold isalnum_. rewrite Ha. reflexivity.
Qed.

Lemma extracted_names_are_identifiers_witness :
  identifier "foo" = true /\ forall c, markup c = true -> occurrences c "foo" = 0.
Proof.
  apply (extracted_names_are_identifiers "@@ -1,2 +1,2 @@ def\foo" "foo").
  vm_compute. reflexivity.
Defined.

Lemma add_match_union (names : gset string) (line : string) :
  add_match names line = add_match ∅ line ∪ names.
Proof.
  unfold add_match.
  destruct (re_match pattern line) as [m|]; [|rewrite (left_id_L ∅ (∪)); reflexivity].
  destruct (m !! 2); [rewrite (right_id_L ∅ (∪))|rewrite (left_id_L ∅ (∪))];
    reflexivity.
Qed.

Lemma foldl_add_match_union (lines : list string) :
  forall names : gset string,
    foldl add_match names lines = foldl add_match ∅ lines ∪ names.
Proof.
  induction lines as [|line lines IH]; intros names; cbn [foldl].
  - rewrite (left_id_L ∅ (∪)). reflexivity.
  - rewrite (IH (add_match names line)), (IH (add_match ∅ line)).
    rewrite (add_match_union names line), (assoc_L (∪)). reflexivity.
Qed.

Lemma foldl_add_match_headers (lines : list string) :
  forall names : gset string,
    foldl add_match names lines = foldl add_match names (header_lines lines).
Proof.
  unfold header_lines.
  induction lines as [|line lines IH]; intros names; [reflexivity|].
  cbn [foldl List.filter]. destruct (startswith "@@" line) eqn:H.
  - cbn [foldl]. apply IH.
  - rewrite (add_match_not_header _ _ H). apply IH.
Qed.

Lemma forallb_filter {A : Type} (p q : A -> bool) (l : list A) :
  forallb p l = true -> forallb p (List.filter q l) = true.
Proof.
  induction l as [|x l IH]; [reflexivity|]. cbn [forallb List.filter].
  intros [Hx Hl]%andb_prop. destruct (q x); cbn [forallb]; rewrite ?Hx; auto.
Qed.

(** X12.  The names of a diff are those of its header lines, and the names
    of two diffs laid end to end are the names of the one together with the
    names of the other: each line is searched on its own, and a line that
    does not start with [@@] gives no name. *)
Theorem names_come_from_header_lines (lines1 lines2 : list string) :
  forallb (fun line => negb (has_break line)) (lines1 ++ lines2) = true ->
  extract_function_names (unlines (lines1 ++ lines2))
    = extract_function_names (unlines lines1) ∪ extract_function_names (unlines lines2)
  /\ extract_function_names (unlines lines1)
     = extract_function_names (unlines (header_lines lines1)).
Proof.
  intros H. pose proof H as H'. rewrite forallb_app in H'.
  apply andb_prop in H' as [H1 H2]. unfold extract_function_names.
  rewrite (splitlines_unlines _ H), (splitlines_unlines _ H1),
    (splitlines_unlines _ H2).
  rewrite (splitlines_unlines (header_lines lines1))
    by (apply forallb_filter; exact H1).
  split.
  - rewrite foldl_app, foldl_add_match_union. apply (comm_L (∪)).
  - apply foldl_add_match_headers.
Qed.

Lemma names_come_from_header_lines_witness :
  extract_function_names
    (unlines (["@@ -1 +1 @@ def\f"; "-def\g"] ++ ["@@ -9 +9 @@ function\h"; "+x"]))
    = extract_function_names (unlines ["@@ -1 +1 @@ def\f"; "-def\g"])
      ∪ extract_function_names (unlines ["@@ -9 +9 @@ function\h"; "+x"])
  /\ extract_function_names (unlines ["@@ -1 +1 @@ def\f"; "-def\g"])
     = extract_function_names (unlines (header_lines ["@@ -1 +1 @@ def\f"; "-def\g"])).
Proof.
  apply (names_come_from_header_lines ["@@ -1 +1 @@ def\f"; "-def\g"]
           ["@@ -9 +9 @@ function\h"; "+x"]).
  reflexivity.
Defined.

(** ** The list of the files to show *)

Section MainProperties.
Variable get_file_content_at_commit : option string -> string -> string -> string.
Variable get_git_diff : string -> string -> string -> string -> string.
Variable commit1 : string.
Variable commit2 : option string.
Variable repo_path : string.

Let entry := diff_entry get_file_content_at_commit get_git_diff commit1 commit2 repo_path.
Let build := build_diffs get_file_content_at_commit get_git_diff commit1 commit2 repo_path.

(** A line with its two fields gives an entry for a source file and none
    for another file. *)
Lemma diff_entry_two_fields (line : string) :
  two_fields line = true ->
  if source_file (name_on line)
  then exists d, entry line = inr (Some d)
                 /\ built_entry d = true /\ file_name d = name_on line
  else entry line = inr None.
Proof.
  unfold entry, diff_entry, two_fields, name_on.
  destruct (split_once line) as [|status [|name [|x l]]]; try discriminate.
  intros _. destruct (source_file name) eqn:Hs; [|reflexivity].
  destruct (String.eqb status "A").
  - eexists. split; [reflexivity|]. unfold built_entry. cbn. rewrite Hs. auto.
  - destruct (String.eqb status "D").
    + eexists. split; [reflexivity|]. unfold built_entry. cbn. rewrite Hs. auto.
    + eexists. split; [reflexivity|]. unfold built_entry. cbn. rewrite Hs. auto.
Qed.

Lemma diff_entry_one_field (line : string) :
  two_fields line = false -> entry line = inl (NotEnoughValues line).
Proof.
  unfold entry, diff_entry, two_fields.
  destruct (split_once line) as [|status [|name [|x l]]]; try discriminate;
    reflexivity.
Qed.

(** X13.  When every line of the list of changed files has its two fields,
    the main program builds its list without an error: one entry for each
    line whose file name ends with [.c], [.h] or [.py], in the order of the
    lines, and none for another file.  An entry has the status A or D and no
    diff, or the empty status and no file content: every status but A and D
    is stored as the empty status. *)
Theorem build_diffs_entries (changed_files : list string) :
  forallb two_fields changed_files = true ->
  exists diffs,
    build changed_files = inr diffs
    /\ forallb built_entry diffs = true
    /\ map file_name diffs = List.filter source_file (map name_on changed_files).
Proof.
  unfold build. induction changed_files as [|line lines IH]; cbn [forallb]; intros H.
  - exists []. auto.
  - apply andb_prop in H as [Hl Hls]. destruct (IH Hls) as (diffs & Hb & Hall & Hnames).
    pose proof (diff_entry_two_fields line Hl) as He. unfold entry in He.
    cbn [build_diffs map List.filter]. rewrite Hb.
    destruct (source_file (name_on line)).
    + destruct He as (d & -> & Hd & Hname). exists (d :: diffs).
      cbn [forallb map]. rewrite Hd, Hall, Hname, Hnames. auto.
    + rewrite He. exists diffs. auto.
Qed.

(** X14.  A line of the list of changed files with fewer than two fields (an
    empty line, a status alone) ends the main program with the error of the
    unpacking, before anything is written: when the lines before it have
    their two fields, the list is not built, whatever follows the line. *)
Theorem build_diffs_needs_two_fields (pre post : list string) (line : string) :
  forallb two_fields pre = true -> two_fields line = false ->
  build (pre ++ line :: post) = inl (NotEnoughValues line).
Proof.
  unfold build. intros Hpre Hl.
  induction pre as [|l pre IH]; cbn [app build_diffs].
  - pose proof (diff_entry_one_field line Hl) as He. unfold entry in He.
    rewrite He. reflexivity.
  - cbn [forallb] in Hpre. apply andb_prop in Hpre as [Hl0 Hpre].
    pose proof (diff_entry_two_fields l Hl0) as He. unfold entry in He.
    rewrite (IH Hpre).
    destruct (source_file (name_on l)); [destruct He as (d & -> & _)|rewrite He];
      reflexivity.
Qed.
End MainProperties.

Lemma build_diffs_entries_witness :
  exists diffs,
    build_diffs (fun _ _ _ => "int x;") (fun _ _ _ _ => scenario_changes)
      "abc" None "repo" ["M a.c"; "A b.py"; "D notes.txt"; "R100 c.h"]
    = inr diffs
    /\ forallb built_entry diffs = true
    /\ map file_name diffs
       = List.filter source_file
           (map name_on ["M a.c"; "A b.py"; "D notes.txt"; "R100 c.h"]).
Proof.
  apply (build_diffs_entries (fun _ _ _ => "int x;") (fun _ _ _ _ => scenario_changes)
           "abc" None "repo" ["M a.c"; "A b.py"; "D notes.txt"; "R100 c.h"]).
  reflexivity.
Defined.

Lemma build_diffs_needs_two_fields_witness :
  build_diffs (fun _ _ _ => "int x;") (fun _ _ _ _ => scenario_changes)
    "abc" None "repo" (["M a.c"] ++ "M" :: ["A b.py"])
  = inl (NotEnoughValues "M").
Proof.
  apply (build_diffs_needs_two_fields (fun _ _ _ => "int x;")
           (fun _ _ _ _ => scenario_changes) "abc" None "repo"
           ["M a.c"] ["A b.py"] "M");
    reflexivity.
Defined.

(** ** Headers at their edges *)

Lemma split_not_empty (sep : ascii) (s : string) :
  exists piece rest, split sep s = piece :: rest.
Proof.
  induction s as [|c s (piece & rest & IH)]; cbn [split]; [eauto|].
  destruct (Ascii.eqb c sep); [eauto|]. rewrite IH. cbn [cons_first]. eauto.
Qed.

(** X15.  A line with fewer than three parts between single spaces, such
    as [@@] alone or [@@ -3], never parses as a header: the second or the
    third part is missing and the index raises IndexError, unless the second
    part is there and [int] refuses its start field first.  In both loops
    such a line that starts with [@@] ends the file there. *)
Theorem header_needs_two_ranges (line : string) (st : Z * Z) :
  length (split " " line) < 3 ->
  exists e,
    hunk_header line = Raise e
    /\ (e = IndexError \/ exists literal, e = ValueError literal)
    /\ (startswith "@@" line = true ->
        row_step_one st line = ([], Raise e) /\ row_step_two st line = ([], Raise e)).
Proof.
  intros H.
  assert (exists e, hunk_header line = Raise e
                    /\ (e = IndexError \/ exists literal, e = ValueError literal))
    as (e & He & Hkind).
  { unfold hunk_header.
    destruct (split " " line) as [|p0 [|p1 [|p2 rest]]] eqn:E.
    - destruct (split_not_empty " " line) as (? & ? & E'). congruence.
    - exists IndexError. auto.
    - change (index [p0; p1] 1) with (Ok (A := string) p1). cbn [and_then].
      destruct (split_not_empty "," p1) as (piece & rest & ->).
      change (index (piece :: rest) 0) with (Ok (A := string) piece).
      cbn [and_then]. unfold int at 1.
      destruct (int_of (tail piece)); cbn [and_then]; eauto.
    - cbn [length] in H. lia. }
  exists e. split; [exact He|]. split; [exact Hkind|]. intros Hs.
  rewrite row_step_two_one, (row_step_header st line Hs), He. auto.
Qed.

Lemma header_needs_two_ranges_witness :
  exists e,
    hunk_header "@@ -3" = Raise e
    /\ (e = IndexError \/ exists literal, e = ValueError literal)
    /\ (startswith "@@" "@@ -3" = true ->
        row_step_one (0%Z, 0%Z) "@@ -3" = ([], Raise e)
        /\ row_step_two (0%Z, 0%Z) "@@ -3" = ([], Raise e)).
Proof. apply (header_needs_two_ranges "@@ -3" (0%Z, 0%Z)). cbn. lia. Defined.

Lemma sign_char_chars (c : ascii) :
  sign_char c = true -> Ascii.eqb c " " = false /\ Ascii.eqb c "," = false.
Proof.
  unfold sign_char. intros [H1 H2]%andb_prop.
  apply negb_true_iff in H1, H2. auto.
Qed.

Lemma signed_header_parts (sign1 sign2 : ascii) (o oc n nc tr : string) :
  sign_char sign1 = true -> sign_char sign2 = true ->
  start_field o = true -> count_field oc = true ->
  start_field n = true -> count_field nc = true -> header_rest tr = true ->
  exists rest,
    split " " (signed_header sign1 sign2 o oc n nc tr)
    = "@@" :: String sign1 (o +:+ oc) :: String sign2 (n +:+ nc) :: rest.
Proof.
  intros [Hs1 _]%sign_char_chars [Hs2 _]%sign_char_chars Ho Hoc Hn Hnc Htr.
  destruct (start_field_chars _ Ho) as [Ho1 _].
  destruct (start_field_chars _ Hn) as [Hn1 _].
  destruct (count_field_sep _ Hoc) as [_ Hoc1].
  destruct (count_field_sep _ Hnc) as [_ Hnc1].
  destruct (split_first " " (String sign2 (n +:+ nc)) tr) as [rest Hrest].
  { cbn [has_char]. rewrite Hs2, has_char_app, Hn1, Hnc1. reflexivity. }
  { exact Htr. }
  exists rest. unfold signed_header.
  change ("@@ " +:+ String sign1 (o +:+ oc) +:+ " " +:+ String sign2 (n +:+ nc) +:+ tr)
    with ("@@" +:+ String " "
            (String sign1 (o +:+ oc) +:+ String " " (String sign2 (n +:+ nc) +:+ tr))).
  rewrite split_app by reflexivity. f_equal.
  rewrite split_app, Hrest; [reflexivity|].
  cbn [has_char]. rewrite Hs1, has_char_app, Ho1, Hoc1. reflexivity.
Qed.

Lemma hunk_header_signed (sign1 sign2 : ascii) (o oc n nc tr : string) :
  sign_char sign1 = true -> sign_char sign2 = true ->
  start_field o = true -> count_field oc = true ->
  start_field n = true -> count_field nc = true -> header_rest tr = true ->
  hunk_header (signed_header sign1 sign2 o oc n nc tr)
  = match int o with
    | Raise e => Raise e
    | Ok a =>
        match int n with
        | Raise e => Raise e
        | Ok b => Ok (a, b)
        end
    end.
Proof.
  intros Hs1 Hs2 Ho Hoc Hn Hnc Htr.
  destruct (signed_header_parts sign1 sign2 o oc n nc tr Hs1 Hs2 Ho Hoc Hn Hnc Htr)
    as [rest Hparts].
  destruct (sign_char_chars _ Hs1) as [_ Hc1].
  destruct (sign_char_chars _ Hs2) as [_ Hc2].
  destruct (header_part_field sign1 o oc Hc1 Ho Hoc) as [r1 H1].
  destruct (header_part_field sign2 n nc Hc2 Hn Hnc) as [r2 H2].
  change (String sign1 EmptyString +:+ o +:+ oc) with (String sign1 (o +:+ oc)) in H1.
  change (String sign2 EmptyString +:+ n +:+ nc) with (String sign2 (n +:+ nc)) in H2.
  change (String sign1 EmptyString +:+ o) with (String sign1 o) in H1.
  change (String sign2 EmptyString +:+ n) with (String sign2 n) in H2.
  unfold hunk_header. rewrite Hparts.
  change (index ("@@" :: String sign1 (o +:+ oc) :: String sign2 (n +:+ nc) :: rest) 1)
    with (Ok (A := string) (String sign1 (o +:+ oc))).
  change (index ("@@" :: String sign1 (o +:+ oc) :: String sign2 (n +:+ nc) :: rest) 2)
    with (Ok (A := string) (String sign2 (n +:+ nc))).
  cbn [and_then]. rewrite H1.
  change (index (String sign1 o :: r1) 0) with (Ok (A := string) (String sign1 o)).
  cbn [and_then tail].
  destruct (int o) as [a|e]; cbn [and_then]; [|reflexivity].
  rewrite H2.
  change (index (String sign2 n :: r2) 0) with (Ok (A := string) (String sign2 n)).
  cbn [and_then tail]. destruct (int n); reflexivity.
Qed.

(** X16.  The signs of the two ranges of a header are not read: with any
    two characters but the space and the comma in the place of [-] and [+]
    (the two signs exchanged, say) a header gives the same counters or the
    same error as the header with [-] and [+]. *)
Theorem header_signs_are_not_read (sign1 sign2 : ascii) (o oc n nc tr : string) :
  sign_char sign1 = true -> sign_char sign2 = true ->
  start_field o = true -> count_field oc = true ->
  start_field n = true -> count_field nc = true -> header_rest tr = true ->
  hunk_header (signed_header sign1 sign2 o oc n nc tr)
  = hunk_header (header_line o oc n nc tr).
Proof.
  intros Hs1 Hs2 Ho Hoc Hn Hnc Htr.
  rewrite (hunk_header_signed sign1 sign2 o oc n nc tr Hs1 Hs2 Ho Hoc Hn Hnc Htr).
  rewrite (hunk_header_line o oc n nc tr Ho Hoc Hn Hnc Htr). reflexivity.
Qed.

Lemma header_signs_are_not_read_witness :
  hunk_header (signed_header "+" "-" "3" ",2" "7" EmptyString " @@")
  = hunk_header (header_line "3" ",2" "7" EmptyString " @@").
Proof.
  apply (header_signs_are_not_read "+" "-" "3" ",2" "7" EmptyString " @@");
    reflexivity.
Defined.

(** ** Hunks, files and the page *)

Lemma row_step_header_any (st st' : Z * Z) (line : string) :
  startswith "@@" line = true -> row_step_one st line = row_step_one st' line.
Proof. intros H. rewrite !(row_step_header _ line H). reflexivity. Qed.

(** X17.  A header sets both counters anew, so what is written for a hunk
    does not depend on what comes before it: after lines that are written
    without an error, a header and the lines that follow it give the rows,
    the counters or the error that they give at the start of a diff, in both
    loops. *)
Theorem hunk_is_written_alike_anywhere (before body rows : list string)
    (header : string) (st st' : Z * Z) :
  startswith "@@" header = true ->
  for_fold before st row_step_one = (rows, Ok st') ->
  for_fold (before ++ header :: body) st row_step_one
    = (rows ++ fst (for_fold (header :: body) (0%Z, 0%Z) row_step_one),
       snd (for_fold (header :: body) (0%Z, 0%Z) row_step_one))
  /\ for_fold (before ++ header :: body) st row_step_two
    = (rows ++ fst (for_fold (header :: body) (0%Z, 0%Z) row_step_two),
       snd (for_fold (header :: body) (0%Z, 0%Z) row_step_two)).
Proof.
  intros Hh Hb. rewrite row_step_two_one.
  assert (for_fold (header :: body) st' row_step_one
          = for_fold (header :: body) (0%Z, 0%Z) row_step_one) as H.
  { cbn [for_fold]. rewrite (row_step_header_any st' (0%Z, 0%Z) header Hh).
    reflexivity. }
  rewrite for_fold_app, (bind_ok _ _ _ _ Hb), H. auto.
Qed.

Lemma hunk_is_written_alike_anywhere_witness :
  for_fold (["@@ -1 +1 @@"; "-a"; "+b"] ++ "@@ -10,2 +10,3 @@" :: ["-c"])
      (0%Z, 0%Z) row_step_one
    = ([row_boundary; row_new_only 1 "a"; row_old_only 1 "b"]
         ++ fst (for_fold ("@@ -10,2 +10,3 @@" :: ["-c"]) (0%Z, 0%Z) row_step_one),
       snd (for_fold ("@@ -10,2 +10,3 @@" :: ["-c"]) (0%Z, 0%Z) row_step_one))
  /\ for_fold (["@@ -1 +1 @@"; "-a"; "+b"] ++ "@@ -10,2 +10,3 @@" :: ["-c"])
      (0%Z, 0%Z) row_step_two
    = ([row_boundary; row_new_only 1 "a"; row_old_only 1 "b"]
         ++ fst (for_fold ("@@ -10,2 +10,3 @@" :: ["-c"]) (0%Z, 0%Z) row_step_two),
       snd (for_fold ("@@ -10,2 +10,3 @@" :: ["-c"]) (0%Z, 0%Z) row_step_two)).
Proof.
  apply (hunk_is_written_alike_anywhere ["@@ -1 +1 @@"; "-a"; "+b"] ["-c"]
           [row_boundary; row_new_only 1 "a"; row_old_only 1 "b"]
           "@@ -10,2 +10,3 @@" (0%Z, 0%Z) (2%Z, 2%Z));
    reflexivity.
Defined.

Lemma lstrip_indent (indent s : string) :
  all_chars isspace indent = true -> lstrip isspace (indent +:+ s) = lstrip isspace s.
Proof.
  induction indent as [|c indent IH]; [reflexivity|]. cbn [all_chars].
  intros [Hc Hi]%andb_prop. rewrite append_String. cbn [lstrip].
  rewrite Hc. exact (IH Hi).
Qed.

(** X18.  In the block of an added or a deleted file the indentation of a
    line is not shown: white space in front of a line changes nothing in its
    row. *)
Theorem whole_file_rows_drop_indentation (indent line : string) (i : Z) :
  all_chars isspace indent = true ->
  numbered_added i (indent +:+ line) = numbered_added i line
  /\ numbered_removed i (indent +:+ line) = numbered_removed i line.
Proof.
  intros H. unfold numbered_added, numbered_removed, strip.
  rewrite (lstrip_indent indent line H). auto.
Qed.

Lemma whole_file_rows_drop_indentation_witness :
  numbered_added 2 ("    " +:+ "return x") = numbered_added 2 "return x"
  /\ numbered_removed 2 ("    " +:+ "return x") = numbered_removed 2 "return x".
Proof.
  apply (whole_file_rows_drop_indentation "    " "return x" 2). reflexivity.
Defined.






(** ** Changed lines before the first header *)

Lemma count_added_cons (line : string) (lines : list string) :
  count_kind Added (line :: lines)
  = (if startswith "+" line then 1 else 0) + count_kind Added lines.
Proof.
  unfold count_kind, kind_of. cbn [List.filter].
  destruct (startswith "+" line); [reflexivity|].
  destruct (startswith "-" line); reflexivity.
Qed.

Lemma count_removed_cons (line : string) (lines : list string) :
  count_kind Removed (line :: lines)
  = (if startswith "+" line then 0 else if startswith "-" line then 1 else 0)
    + count_kind Removed lines.
Proof.
  unfold count_kind, kind_of. cbn [List.filter].
  destruct (startswith "+" line); [reflexivity|].
  destruct (startswith "-" line); reflexivity.
Qed.

(** The row of the [k]-th of some changed lines, from the counters [o] and
    [n]: a [+] line carries the old counter advanced by the [+] lines before
    it, a [-] line the new counter advanced by the [-] lines before it. *)
Lemma change_rows (before : list string) :
  forall o n : Z,
    forallb (fun line => startswith "+" line || startswith "-" line) before = true ->
    exists rows,
      length rows = length before
      /\ (forall k line,
            before !! k = Some line ->
            rows !! k
            = Some (if startswith "+" line
                    then row_old_only
                           (o + Z.of_nat (count_kind Added (take k before)))%Z (tail line)
                    else row_new_only
                           (n + Z.of_nat (count_kind Removed (take k before)))%Z (tail line)))
      /\ for_fold before (o, n) row_step_one
         = (rows, Ok ((o + Z.of_nat (count_kind Added before))%Z,
                      (n + Z.of_nat (count_kind Removed before))%Z)).
Proof.
  induction before as [|line before IH]; intros o n H.
  - exists []. split; [reflexivity|]. split; [intros k line Hk; discriminate|].
    cbn. rewrite !Z.add_0_r. reflexivity.
  - cbn [forallb] in H. apply andb_prop in H as [Hl Hb].
    rewrite count_added_cons, count_removed_cons.
    destruct (startswith "+" line) eqn:Hp.
    + destruct (IH (o + 1)%Z n Hb) as (rows & Hlen & Hrows & Hfold).
      exists (row_old_only o (tail line) :: rows).
      split; [cbn [length]; rewrite Hlen; reflexivity|]. split.
      * intros [|k] l Hk.
        -- injection Hk as <-. cbn. rewrite Hp, Z.add_0_r. reflexivity.
        -- change (before !! k = Some l) in Hk.
           change ((row_old_only o (tail line) :: rows) !! S k) with (rows !! k).
           rewrite (Hrows k l Hk).
           cbn [take]. rewrite count_added_cons, count_removed_cons, Hp.
           destruct (startswith "+" l); do 2 f_equal; lia.
      * cbn [for_fold]. rewrite (bind_ok _ _ _ _ (row_step_plus_line o n line Hp)), Hfold.
        cbn [fst snd app]. do 3 f_equal; lia.
    + cbn [orb] in Hl.
      destruct (IH o (n + 1)%Z Hb) as (rows & Hlen & Hrows & Hfold).
      exists (row_new_only n (tail line) :: rows).
      split; [cbn [length]; rewrite Hlen; reflexivity|]. split.
      * intros [|k] l Hk.
        -- injection Hk as <-. cbn. rewrite Hp, Z.add_0_r. reflexivity.
        -- change (before !! k = Some l) in Hk.
           change ((row_new_only n (tail line) :: rows) !! S k) with (rows !! k).
           rewrite (Hrows k l Hk).
           cbn [take]. rewrite count_added_cons, count_removed_cons, Hp, Hl.
           destruct (startswith "+" l); do 2 f_equal; lia.
      * cbn [for_fold]. rewrite (bind_ok _ _ _ _ (row_step_minus_line o n line Hl)), Hfold.
        rewrite Hl. cbn [fst snd app]. do 3 f_equal; lia.
Qed.

(** Among changed lines the filter drops the file lines of git and no
    other. *)
Lemma file_marker_preamble (line : string) :
  file_marker line = true ->
  startswith "-" line || startswith "+" line = true /\ preamble line = true.
Proof.
  unfold file_marker, preamble. intros H. split.
  - destruct line as [|c line]; [discriminate|].
    rewrite !startswith_cons in *.
    destruct (Ascii.eqb "-" c), (Ascii.eqb "+" c); try reflexivity; discriminate.
  - apply orb_prop in H as [-> | ->]; rewrite ?orb_true_r; reflexivity.
Qed.

Lemma preamble_file_marker (line : string) :
  startswith "-" line || startswith "+" line = true ->
  preamble line = file_marker line.
Proof.
  unfold file_marker, preamble. destruct line as [|c line]; [discriminate|].
  rewrite !startswith_cons. cbn [startswith]. rewrite !andb_true_r.
  intros [H|H]%orb_prop; apply Ascii.eqb_eq in H as <-; reflexivity.
Qed.

Lemma filter_preamble_changes (lines : list string) :
  forallb (fun line => startswith "+" line || startswith "-" line) lines = true ->
  List.filter (fun line => negb (preamble line)) lines
  = List.filter (fun line => negb (file_marker line)) lines.
Proof.
  induction lines as [|line lines IH]; [reflexivity|].
  cbn [forallb List.filter]. intros [Hl Hls]%andb_prop.
  rewrite orb_comm in Hl. rewrite (preamble_file_marker line Hl), (IH Hls).
  reflexivity.
Qed.

Lemma forallb_filter_keeps {A : Type} (p q : A -> bool) (l : list A) :
  forallb p l = true -> forallb p (List.filter q l) = true.
Proof.
  induction l as [|x l IH]; [reflexivity|].
  cbn [forallb List.filter]. intros [Hx Hl]%andb_prop.
  destruct (q x); cbn [forallb]; rewrite ?Hx; auto.
Qed.

(** *** C8 *)

(** C8, as amended.  In both loops the lines with the marker [+] or [-]
    that come before any header are not refused.  Those that start with
    [--- ] or [+++ ] are dropped by the filter of lines 79 and 125 and get no
    row; each of the others is written as a row, a [+] line with the number
    of [+] lines kept before it and a [-] line with the number of [-] lines
    kept before it (both counters start from 0), and the loop goes on with
    the lines after them, the old counter at the number of these [+] lines
    and the new counter at the number of these [-] lines. *)
Theorem C8_change_lines_before_header_are_rows (diff : string)
    (before rest : list string) :
  splitlines diff = before ++ rest ->
  forallb (fun line => startswith "+" line || startswith "-" line) before = true ->
  let kept := List.filter (fun line => negb (file_marker line)) before in
  let rest := List.filter (fun line => negb (preamble line)) rest in
  let counters := (Z.of_nat (count_kind Added kept),
                   Z.of_nat (count_kind Removed kept)) in
  exists rows,
    length rows = length kept
    /\ (forall k line,
          kept !! k = Some line ->
          rows !! k
          = Some (if startswith "+" line
                  then row_old_only (Z.of_nat (count_kind Added (take k kept)))
                         (tail line)
                  else row_new_only (Z.of_nat (count_kind Removed (take k kept)))
                         (tail line)))
    /\ for_fold (lines_of diff) (0%Z, 0%Z) row_step_one
       = (rows ++ fst (for_fold rest counters row_step_one),
          snd (for_fold rest counters row_step_one))
    /\ for_fold (lines_of diff) (0%Z, 0%Z) row_step_two
       = (rows ++ fst (for_fold rest counters row_step_two),
          snd (for_fold rest counters row_step_two)).
Proof.
  intros Hlines Hb kept rest' counters. rewrite row_step_two_one.
  assert (lines_of diff = kept ++ rest') as ->.
  { unfold lines_of. rewrite Hlines, List.filter_app.
    rewrite (filter_preamble_changes before Hb). reflexivity. }
  assert (forallb (fun line => startswith "+" line || startswith "-" line) kept = true)
    as Hk by apply (forallb_filter_keeps _ _ _ Hb).
  destruct (change_rows kept 0%Z 0%Z Hk) as (rows & Hlen & Hrows & Hfold).
  rewrite !Z.add_0_l in Hfold. exists rows.
  split; [exact Hlen|]. split.
  - intros k line Hline. rewrite (Hrows k line Hline), !Z.add_0_l. reflexivity.
  - rewrite for_fold_app, (bind_ok _ _ _ _ Hfold). auto.
Qed.

Lemma C8_change_lines_before_header_are_rows_witness :
  exists rows,
    length rows = length ["+a"; "+b"; "-c"]
    /\ (forall k line,
          ["+a"; "+b"; "-c"] !! k = Some line ->
          rows !! k
          = Some (if startswith "+" line
                  then row_old_only
                         (Z.of_nat (count_kind Added (take k ["+a"; "+b"; "-c"])))
                         (tail line)
                  else row_new_only
                         (Z.of_nat (count_kind Removed (take k ["+a"; "+b"; "-c"])))
                         (tail line)))
    /\ for_fold (lines_of headless) (0%Z, 0%Z) row_step_one
       = (rows ++ fst (for_fold ["@@ -1 +1 @@"; "+d"] (2%Z, 1%Z) row_step_one),
          snd (for_fold ["@@ -1 +1 @@"; "+d"] (2%Z, 1%Z) row_step_one))
    /\ for_fold (lines_of headless) (0%Z, 0%Z) row_step_two
       = (rows ++ fst (for_fold ["@@ -1 +1 @@"; "+d"] (2%Z, 1%Z) row_step_two),
          snd (for_fold ["@@ -1 +1 @@"; "+d"] (2%Z, 1%Z) row_step_two)).
Proof.
  apply (C8_change_lines_before_header_are_rows headless
           ["--- a/x.py"; "+a"; "+b"; "-c"] ["@@ -1 +1 @@"; "+d"]);
    reflexivity.
Defined.

(** ** The reported count *)

Lemma file_marker_not_header (line : string) :
  file_marker line = true -> startswith "@@" line = false.
Proof.
  unfold file_marker. destruct line as [|c line]; [reflexivity|].
  rewrite !startswith_cons.
  intros [[H _]%andb_prop|[H _]%andb_prop]%orb_prop;
    apply Ascii.eqb_eq in H as <-; reflexivity.
Qed.

Lemma file_markers_body (lines : list string) :
  List.filter file_marker lines = List.filter file_marker (body_lines lines).
Proof.
  unfold body_lines. induction lines as [|line lines IH]; [reflexivity|].
  cbn [List.filter]. destruct (file_marker line) eqn:Hm.
  - rewrite (file_marker_not_header line Hm). cbn [negb List.filter].
    rewrite Hm, IH. reflexivity.
  - destruct (startswith "@@" line); cbn [negb List.filter]; rewrite ?Hm; exact IH.
Qed.

(** What the filter keeps, and the file lines that it drops, make up what
    the sum would count without the filter. *)
Lemma difference_count_kept (lines : list string) :
  difference_count (List.filter (fun line => negb (preamble line)) lines)
  + length (List.filter file_marker lines)
  = difference_count lines.
Proof.
  unfold difference_count. induction lines as [|line lines IH]; [reflexivity|].
  cbn [List.filter].
  destruct (startswith "-" line || startswith "+" line) eqn:Hc.
  - rewrite (preamble_file_marker line Hc).
    destruct (file_marker line); cbn [negb List.filter length]; rewrite ?Hc;
      cbn [length]; lia.
  - destruct (file_marker line) eqn:Hm.
    { destruct (file_marker_preamble line Hm) as [H _]. congruence. }
    destruct (preamble line); cbn [negb List.filter]; rewrite ?Hc; exact IH.
Qed.

(** The count that is written for the diff of a file: the records of its
    hunks less the file lines among them. *)
Lemma reported_count (path index : string) (hs : list hunk) :
  forallb (fun line => negb (has_break line)) (git_header path index ++ hunks_lines hs)
    = true ->
  well_split hs = true ->
  difference_count (lines_of (file_diff path index hs))
  + length (List.filter file_marker (hunks_bodies hs))
  = records_count hs.
Proof.
  intros Hbr Hs. unfold lines_of, file_diff, records_count.
  rewrite (splitlines_unlines _ Hbr), List.filter_app.
  replace (List.filter (fun line => negb (preamble line)) (git_header path index))
    with (@nil string) by reflexivity.
  rewrite app_nil_l, <- (body_lines_hunks hs Hs), <- file_markers_body.
  rewrite difference_count_kept. apply difference_count_kinds.
Qed.

Lemma append_inv_tail (a b t : string) : a +:+ t = b +:+ t -> a = b.
Proof.
  revert b. induction a as [|c a IH]; intros [|d b] H.
  - reflexivity.
  - apply (f_equal String.length) in H. rewrite append_nil_l, length_app in H.
    cbn [String.length] in H. lia.
  - apply (f_equal String.length) in H. rewrite append_nil_l, length_app in H.
    cbn [String.length] in H. lia.
  - rewrite !append_String in H. injection H as -> H. f_equal. apply IH, H.
Qed.

Lemma written_count_inj (n m : nat) : written_count n = written_count m -> n = m.
Proof.
  unfold written_count. intros H. apply String.app_inj in H.
  apply append_inv_tail in H. apply (inj pretty) in H. lia.
Qed.

Lemma count_line (diff : string) :
  fst (modified_one diff) !! 0
  = Some (written_count (difference_count (lines_of diff))).
Proof.
  rewrite modified_one_rows.
  destruct (for_fold _ _ _) as [rows [st|e]]; reflexivity.
Qed.

(** *** C6 *)

(** C6.  For the diff of a file as git writes it, its header and then its
    hunks, the count that both branches write is the number of added and
    removed records of the hunks less the number of body lines that start
    with [--- ] or [+++ ]: the header of git is not counted, and neither are
    these records, which the filter of lines 79 and 125 takes for lines of the
    header.  So the count is the one of the claim exactly when no body line
    starts so.  It is the same for two splits of the same body lines into
    hunks. *)
Theorem C6_reported_count (path index : string) (hs : list hunk) :
  forallb (fun line => negb (has_break line)) (git_header path index ++ hunks_lines hs)
    = true ->
  well_split hs = true ->
  let diff := file_diff path index hs in
  let dropped := length (List.filter file_marker (hunks_bodies hs)) in
  dropped <= records_count hs
  /\ fst (modified_one diff) !! 0 = Some (written_count (records_count hs - dropped))
  /\ fst (modified_two diff) !! 0 = Some (written_count (records_count hs - dropped))
  /\ (fst (modified_one diff) !! 0 = Some (written_count (records_count hs))
      <-> dropped = 0)
  /\ (forall hs' : list hunk,
        forallb (fun line => negb (has_break line))
          (git_header path index ++ hunks_lines hs') = true ->
        well_split hs' = true ->
        hunks_bodies hs' = hunks_bodies hs ->
        fst (modified_one (file_diff path index hs')) !! 0
        = fst (modified_one diff) !! 0).
Proof.
  intros Hbr Hs diff dropped.
  pose proof (reported_count path index hs Hbr Hs) as Hc.
  fold diff dropped in Hc.
  assert (fst (modified_one diff) !! 0
          = Some (written_count (records_count hs - dropped))) as Hw.
  { rewrite count_line. do 2 f_equal. lia. }
  split; [lia|]. split; [exact Hw|]. split; [rewrite modified_two_one; exact Hw|].
  split.
  - rewrite Hw. split.
    + intros H%(inj Some)%written_count_inj. lia.
    + intros ->. rewrite Nat.sub_0_r. reflexivity.
  - intros hs' Hbr' Hs' Hb.
    pose proof (reported_count path index hs' Hbr' Hs') as Hc'.
    rewrite Hb in Hc'. fold dropped in Hc'.
    rewrite Hw, count_line. do 2 f_equal.
    unfold records_count in *. rewrite Hb in Hc'. lia.
Qed.

Lemma C6_reported_count_witness :
  1 <= 2
  /\ fst (modified_one sql_diff) !! 0 = Some (written_count (2 - 1))
  /\ fst (modified_two sql_diff) !! 0 = Some (written_count (2 - 1))
  /\ (fst (modified_one sql_diff) !! 0 = Some (written_count 2) <-> 1 = 0)
  /\ (forall hs' : list hunk,
        forallb (fun line => negb (has_break line))
          (git_header "q.sql" "83db48f..bf2a1c9 100644" ++ hunks_lines hs') = true ->
        well_split hs' = true ->
        hunks_bodies hs' = hunks_bodies sql_hunks ->
        fst (modified_one (file_diff "q.sql" "83db48f..bf2a1c9 100644" hs')) !! 0
        = fst (modified_one sql_diff) !! 0).
Proof.
  apply (C6_reported_count "q.sql" "83db48f..bf2a1c9 100644" sql_hunks); reflexivity.
Defined.
